(** * Webhook signature verification (src/Webhooks.ts)

    A shallow embedding of the webhook subsystem of the SDK: the header
    parser [parseHeader], the two verifiers [verifyHeader] and
    [verifyHeaderAsync], the wrappers [constructEvent] and
    [constructEventAsync], and the fixture generator
    [generateTestHeaderString].

    Conventions of the embedding.
    - A JavaScript string is a [string]: a sequence of code units, here
      restricted to the range 0..255.  The delimiters of the header grammar
      and the decimal digits are all in that range.
    - A JavaScript number is a [Js.number]: [NaN] or an integer.  Doubles
      represent every integer of magnitude up to 2^53 exactly, and
      arithmetic on them is exact there; Unix timestamps and tolerance
      windows in seconds live far inside that range.  Fractions and
      infinities are outside the embedding.
    - [undefined] is [None] of an option type.
    - Exceptions, the clock, the lazily created default crypto provider and
      the calls made to a crypto provider are threaded through the monad
      [M]. *)

From Stdlib Require Import ZArith List String Ascii Bool Lia.
Import ListNotations.

Local Open Scope string_scope.
Local Open Scope Z_scope.

(** ** Host primitives of the language *)

Module Js.

Inductive number : Type :=
| NaN
| Int (z : Z).

(** [a === b] on numbers: [NaN] is equal to nothing. *)
Definition strictEq (a b : number) : bool :=
  match a, b with
  | Int x, Int y => x =? y
  | _, _ => false
  end.

(** [a > b]: false as soon as one side is [NaN]. *)
Definition gt (a b : number) : bool :=
  match a, b with
  | Int x, Int y => y <? x
  | _, _ => false
  end.

(** [a - b]. *)
Definition sub (a b : number) : number :=
  match a, b with
  | Int x, Int y => Int (x - y)
  | _, _ => NaN
  end.

(** Truthiness of a number: [0] and [NaN] are falsy. *)
Definition truthy (a : number) : bool :=
  match a with
  | NaN => false
  | Int z => negb (z =? 0)
  end.

(** Truthiness of a string: only the empty string is falsy. *)
Definition truthyString (s : string) : bool :=
  match s with
  | EmptyString => false
  | String _ _ => true
  end.

(** [Math.floor] of a possibly missing number; [Math.floor(undefined)] is
    [NaN], and an integer is its own floor. *)
Definition floor (a : option number) : number :=
  match a with
  | None => NaN
  | Some n => n
  end.

(** [s.split(sep)] for a separator of one code unit.  The result is never
    empty: a string without the separator is returned whole. *)
Fixpoint split (sep : ascii) (s : string) : list string :=
  match s with
  | EmptyString => [EmptyString]
  | String c rest =>
      if Ascii.eqb c sep then EmptyString :: split sep rest
      else match split sep rest with
           | [] => [String c EmptyString]
           | w :: ws => String c w :: ws
           end
  end.

(** [items.join(sep)]. *)
Definition join (sep : string) (items : list string) : string :=
  String.concat sep items.

(** White space skipped by [parseInt] (tab, line feed, vertical tab, form
    feed, carriage return, space, no-break space). *)
Definition isWhiteSpace (c : ascii) : bool :=
  let n := nat_of_ascii c in
  ((9 <=? n)%nat && (n <=? 13)%nat) || (n =? 32)%nat || (n =? 160)%nat.

Fixpoint trimStart (s : string) : string :=
  match s with
  | EmptyString => EmptyString
  | String c rest => if isWhiteSpace c then trimStart rest else s
  end.

Definition digitValue (c : ascii) : option Z :=
  let n := Z.of_nat (nat_of_ascii c) in
  if (48 <=? n) && (n <=? 57) then Some (n - 48) else None.

(** The longest prefix of decimal digits, read left to right; [acc] is
    [None] as long as no digit has been read. *)
Fixpoint digitsPrefix (s : string) (acc : option Z) : option Z :=
  match s with
  | EmptyString => acc
  | String c rest =>
      match digitValue c with
      | Some d =>
          digitsPrefix rest
            (Some (10 * match acc with Some a => a | None => 0 end + d))
      | None => acc
      end
  end.

(** [parseInt(s, 10)]: skip leading white space, read an optional sign,
    then the longest run of digits; no digit at all gives [NaN].  With
    radix 10 no [0x] prefix is recognised.  The result is the integer the
    digits denote (the language rounds it to the nearest double, which
    changes nothing up to 2^53). *)
Definition parseInt (s : string) : number :=
  let s1 := trimStart s in
  let '(sign, s2) :=
    match s1 with
    | String "-" rest => (-1, rest)
    | String "+" rest => (1, rest)
    | _ => (1, s1)
    end in
  match digitsPrefix s2 None with
  | None => NaN
  | Some m => Int (sign * m)
  end.

(** [String(v)] for a value that is a string or [undefined]. *)
Definition toStringValue (v : option string) : string :=
  match v with
  | None => "undefined"
  | Some s => s
  end.

Definition digitChar (d : Z) : ascii := ascii_of_nat (Z.to_nat (48 + d)).

Fixpoint decimalDigits (fuel : nat) (n : Z) (acc : string) : string :=
  match fuel with
  | O => acc
  | S fuel' =>
      let acc' := String (digitChar (n mod 10)) acc in
      if n <? 10 then acc' else decimalDigits fuel' (n / 10) acc'
  end.

(** The decimal digits of a natural number; a number below [2 ^ fuel] has
    at most [fuel] digits. *)
Definition decimal (n : Z) : string :=
  decimalDigits (S (Z.to_nat (Z.log2 n))) n EmptyString.

(** [String(x)], as used by string concatenation and template literals.
    Integers print in decimal (the language switches to exponent notation
    from 10^21 on, which is outside the embedding). *)
Definition numberToString (x : number) : string :=
  match x with
  | NaN => "NaN"
  | Int z => if z <? 0 then String "-" (decimal (- z)) else decimal z
  end.

End Js.

(** ** Data of the webhook subsystem *)

(** The crypto capability.  The asynchronous method is given by the value
    its promise resolves to. *)
Record StripeCryptoProvider : Type := {
  computeHMACSignature : string -> string -> string;
  computeHMACSignatureAsync : string -> string -> string
}.

Inductive WebhookPayload : Type :=
| PayloadString (s : string)
| PayloadBuffer (b : list Byte.byte).

(** What a caller can hand over as the header: a string, a [Buffer], an
    array (a multi-valued HTTP field) or something that is none of these,
    such as [undefined] when the request has no such field. *)
Inductive WebhookHeader : Type :=
| HeaderString (s : string)
| HeaderBuffer (b : list Byte.byte)
| HeaderArray (items : list string)
| HeaderUndefined.

(** The array of signatures can hold [undefined]: [kv[1]] of a token that
    has no ['=']. *)
Record WebhookParsedHeader : Type := {
  signatures : list (option string);
  timestamp : Js.number
}.

Record WebhookParsedEvent : Type := {
  details : WebhookParsedHeader;
  decodedPayload : string;
  decodedHeader : option string
}.

Record WebhookTestHeaderOptions : Type := {
  opt_timestamp : option Js.number;
  opt_payload : string;
  opt_secret : string;
  opt_scheme : option string;
  opt_signature : option string;
  opt_cryptoProvider : option StripeCryptoProvider
}.

(** *** Exceptions *)

Inductive ErrorClass : Type :=
| PlainError
| StripeError
| StripeSignatureVerificationError
| SyntaxError.

(** The [detail] of a verification error is the pair of the header and the
    payload as the failing function holds them. *)
Record Exception : Type := {
  errorClass : ErrorClass;
  message : string;
  detail : option (option string * string)
}.

Definition optionsRequired : Exception :=
  {| errorClass := StripeError;
     message := "Options are required";
     detail := None |}.

Definition arrayHeader : Exception :=
  {| errorClass := PlainError;
     message := "Unexpected: An array was passed as a header, which should not be possible for the stripe-signature header.";
     detail := None |}.

Definition unableToExtract (header : option string) (payload : string)
  : Exception :=
  {| errorClass := StripeSignatureVerificationError;
     message := "Unable to extract timestamp and signatures from header";
     detail := Some (header, payload) |}.

Definition noSignaturesWithScheme (header : option string) (payload : string)
  : Exception :=
  {| errorClass := StripeSignatureVerificationError;
     message := "No signatures found with expected scheme";
     detail := Some (header, payload) |}.

Definition noMatchingSignature (header : option string) (payload : string)
  : Exception :=
  {| errorClass := StripeSignatureVerificationError;
     message :=
       "No signatures found matching the expected signature for payload."
       ++ " Are you passing the raw request body you received from Stripe?"
       ++ " https://github.com/stripe/stripe-node#webhook-signing";
     detail := Some (header, payload) |}.

Definition timestampOutsideTolerance (header : option string)
  (payload : string) : Exception :=
  {| errorClass := StripeSignatureVerificationError;
     message := "Timestamp outside the tolerance zone";
     detail := Some (header, payload) |}.

(** *** The host *)

(** What the subsystem takes from the platform and from modules outside
    src/Webhooks.ts: the UTF-8 decoding of a [Buffer], [JSON.parse], and
    the provider that [new NodeCryptoProvider()] builds. *)
Class Host : Type := {
  Json : Type;
  utf8 : list Byte.byte -> string;
  JSON_parse : string -> Exception + Json;
  NodeCryptoProvider : StripeCryptoProvider
}.

(** *** State and effects *)

Inductive HmacCall : Type :=
| SyncCall (data secret : string)
| AsyncCall (data secret : string).

(** The state a call can see or change: the clock ([Date.now()], in
    milliseconds), the module variable holding the default provider, and
    the calls made so far to crypto providers. *)
Record World : Type := {
  dateNow : Z;
  webhooksNodeCryptoProviderInstance : option StripeCryptoProvider;
  hmacCalls : list HmacCall
}.

Inductive Outcome (A : Type) : Type :=
| Return (a : A)
| Throw (e : Exception).
Arguments Return {A} a.
Arguments Throw {A} e.

(** A computation either returns or throws, and may change the world.  An
    [async] function is embedded the same way, [Throw] standing for the
    rejection of its promise. *)
Definition M (A : Type) : Type := World -> Outcome A * World.

Definition ret {A} (a : A) : M A := fun w => (Return a, w).

Definition throw {A} (e : Exception) : M A := fun w => (Throw e, w).

Definition bind {A B} (c : M A) (k : A -> M B) : M B :=
  fun w =>
    match c w with
    | (Return a, w') => k a w'
    | (Throw e, w') => (Throw e, w')
    end.

Notation "'let*' x ':=' c 'in' k" := (bind c (fun x => k))
  (at level 10, x name, c at level 200, k at level 200).

(** [Math.floor(Date.now() / 1000)]. *)
Definition unixNow : M Z := fun w => (Return (dateNow w / 1000), w).

Definition callHMACSignature (p : StripeCryptoProvider)
  (data secret : string) : M string :=
  fun w =>
    (Return (computeHMACSignature p data secret),
     {| dateNow := dateNow w;
        webhooksNodeCryptoProviderInstance :=
          webhooksNodeCryptoProviderInstance w;
        hmacCalls := hmacCalls w ++ [SyncCall data secret] |}).

Definition callHMACSignatureAsync (p : StripeCryptoProvider)
  (data secret : string) : M string :=
  fun w =>
    (Return (computeHMACSignatureAsync p data secret),
     {| dateNow := dateNow w;
        webhooksNodeCryptoProviderInstance :=
          webhooksNodeCryptoProviderInstance w;
        hmacCalls := hmacCalls w ++ [AsyncCall data secret] |}).

(** Modelled from the spec: [utils.secureCompare], which lives in a module
    that is not part of the sources at hand.  The spec asks for a byte-wise
    comparison that looks at every position instead of leaving at the first
    difference and that reports strings of unequal length as unequal.  It
    says nothing of a candidate that is not a string; such a candidate is
    taken to be unequal to every signature. *)
Fixpoint secureCompareBytes (a b : string) (same : bool) : bool :=
  match a, b with
  | EmptyString, EmptyString => same
  | String x a', String y b' => secureCompareBytes a' b' (same && Ascii.eqb x y)
  | _, _ => false
  end.

Definition secureCompare (a : string) (b : option string) : bool :=
  match b with
  | Some s => secureCompareBytes a s true
  | None => false
  end.

(** ** The operations of src/Webhooks.ts *)

Section Operations.

Context {host : Host}.

Definition DEFAULT_TOLERANCE : Js.number := Js.Int 300.

Definition EXPECTED_SCHEME : string := "v1".

(** The callback of the reduction in [parseHeader]. *)
Definition parseHeaderStep (scheme : string) (accum : WebhookParsedHeader)
  (item : string) : WebhookParsedHeader :=
  let kv := Js.split "=" item in
  let accum1 :=
    if String.eqb (nth 0 kv EmptyString) "t"
    then {| signatures := signatures accum;
            timestamp := Js.parseInt (Js.toStringValue (nth_error kv 1)) |}
    else accum in
  if String.eqb (nth 0 kv EmptyString) scheme
  then {| signatures := signatures accum1 ++ [nth_error kv 1];
          timestamp := timestamp accum1 |}
  else accum1.

(** [parseHeader]: [None] is the [null] returned for a header that is not
    a string. *)
Definition parseHeader (header : option string) (scheme : string)
  : option WebhookParsedHeader :=
  match header with
  | None => None
  | Some h =>
      Some (fold_left (parseHeaderStep scheme) (Js.split "," h)
              {| signatures := []; timestamp := Js.Int (-1) |})
  end.

Definition makeHMACContent (payload : string) (details : WebhookParsedHeader)
  : string :=
  Js.numberToString (timestamp details) ++ "." ++ payload.

Definition decodePayload (encodedPayload : WebhookPayload) : string :=
  match encodedPayload with
  | PayloadBuffer b => utf8 b
  | PayloadString s => s
  end.

Definition isArray (encodedHeader : WebhookHeader) : bool :=
  match encodedHeader with
  | HeaderArray _ => true
  | _ => false
  end.

Definition decodeHeader (encodedHeader : WebhookHeader) : option string :=
  match encodedHeader with
  | HeaderBuffer b => Some (utf8 b)
  | HeaderString s => Some s
  | HeaderArray _ => None
  | HeaderUndefined => None
  end.

Definition parseEventDetails (encodedPayload : WebhookPayload)
  (encodedHeader : WebhookHeader) (expectedScheme : string)
  : M WebhookParsedEvent :=
  let decodedPayload := decodePayload encodedPayload in
  if isArray encodedHeader then throw arrayHeader
  else
    let decodedHeader := decodeHeader encodedHeader in
    match parseHeader decodedHeader expectedScheme with
    | None => throw (unableToExtract decodedHeader decodedPayload)
    | Some details =>
        if Js.strictEq (timestamp details) (Js.Int (-1))
        then throw (unableToExtract decodedHeader decodedPayload)
        else if (List.length (signatures details) =? 0)%nat
        then throw (noSignaturesWithScheme decodedHeader decodedPayload)
        else ret {| details := details;
                    decodedPayload := decodedPayload;
                    decodedHeader := decodedHeader |}
    end.

Definition signatureFound (details : WebhookParsedHeader)
  (expectedSignature : string) : bool :=
  negb (List.length (filter (secureCompare expectedSignature)
                  (signatures details)) =? 0)%nat.

Definition validateComputedSignature (payload : string)
  (header : option string) (details : WebhookParsedHeader)
  (expectedSignature : string) (tolerance : Js.number) : M bool :=
  if negb (signatureFound details expectedSignature)
  then throw (noMatchingSignature header payload)
  else
    let* now := unixNow in
    let timestampAge := Js.sub (Js.Int now) (timestamp details) in
    if Js.gt tolerance (Js.Int 0) && Js.gt timestampAge tolerance
    then throw (timestampOutsideTolerance header payload)
    else ret true.

(** The default provider is created on first use and kept in the module
    variable. *)
Definition getNodeCryptoProvider : M StripeCryptoProvider :=
  fun w =>
    match webhooksNodeCryptoProviderInstance w with
    | Some p => (Return p, w)
    | None =>
        (Return NodeCryptoProvider,
         {| dateNow := dateNow w;
            webhooksNodeCryptoProviderInstance := Some NodeCryptoProvider;
            hmacCalls := hmacCalls w |})
    end.

(** [cryptoProvider || getNodeCryptoProvider()]. *)
Definition providerOrDefault (cryptoProvider : option StripeCryptoProvider)
  : M StripeCryptoProvider :=
  match cryptoProvider with
  | Some p => ret p
  | None => getNodeCryptoProvider
  end.

Definition verifyHeader (encodedPayload : WebhookPayload)
  (encodedHeader : WebhookHeader) (secret : string) (tolerance : Js.number)
  (cryptoProvider : option StripeCryptoProvider) : M bool :=
  let* ev := parseEventDetails encodedPayload encodedHeader EXPECTED_SCHEME in
  let* cp := providerOrDefault cryptoProvider in
  let* expectedSignature :=
    callHMACSignature cp
      (makeHMACContent (decodedPayload ev) (details ev)) secret in
  let* _ := validateComputedSignature (decodedPayload ev) (decodedHeader ev)
         (details ev) expectedSignature tolerance in
  ret true.

Definition verifyHeaderAsync (encodedPayload : WebhookPayload)
  (encodedHeader : WebhookHeader) (secret : string) (tolerance : Js.number)
  (cryptoProvider : option StripeCryptoProvider) : M bool :=
  let* ev := parseEventDetails encodedPayload encodedHeader EXPECTED_SCHEME in
  let* cp := providerOrDefault cryptoProvider in
  let* expectedSignature :=
    callHMACSignatureAsync cp
      (makeHMACContent (decodedPayload ev) (details ev)) secret in
  validateComputedSignature (decodedPayload ev) (decodedHeader ev)
    (details ev) expectedSignature tolerance.

(** [tolerance || Webhook.DEFAULT_TOLERANCE]; [None] is [null] or
    [undefined]. *)
Definition toleranceOrDefault (tolerance : option Js.number) : Js.number :=
  match tolerance with
  | Some t => if Js.truthy t then t else DEFAULT_TOLERANCE
  | None => DEFAULT_TOLERANCE
  end.

Definition jsonParse (payload : WebhookPayload) : M Json :=
  match JSON_parse (decodePayload payload) with
  | inl e => throw e
  | inr j => ret j
  end.

Definition constructEvent (payload : WebhookPayload) (header : WebhookHeader)
  (secret : string) (tolerance : option Js.number)
  (cryptoProvider : option StripeCryptoProvider) : M Json :=
  let* _ := verifyHeader payload header secret (toleranceOrDefault tolerance)
         cryptoProvider in
  jsonParse payload.

Definition constructEventAsync (payload : WebhookPayload)
  (header : WebhookHeader) (secret : string) (tolerance : option Js.number)
  (cryptoProvider : option StripeCryptoProvider) : M Json :=
  let* _ := verifyHeaderAsync payload header secret (toleranceOrDefault tolerance)
         cryptoProvider in
  jsonParse payload.

(** [Math.floor(opts.timestamp) || Math.floor(Date.now() / 1000)], the
    second operand being given by [now]. *)
Definition timestampOrNow (timestamp : option Js.number) (now : Z)
  : Js.number :=
  if Js.truthy (Js.floor timestamp) then Js.floor timestamp else Js.Int now.

(** [a || b] for a string that may be missing. *)
Definition stringOr (a : option string) (b : M string) : M string :=
  match a with
  | Some s => if Js.truthyString s then ret s else b
  | None => b
  end.

(** [generateTestHeaderString]; [None] is a missing [opts].  The function
    also writes the defaults it fills in back into [opts]; only the header
    it returns is kept here. *)
Definition generateTestHeaderString (opts : option WebhookTestHeaderOptions)
  : M string :=
  match opts with
  | None => throw optionsRequired
  | Some o =>
      let* now := unixNow in
      let timestamp := timestampOrNow (opt_timestamp o) now in
      let* scheme := stringOr (opt_scheme o) (ret EXPECTED_SCHEME) in
      let* cryptoProvider := providerOrDefault (opt_cryptoProvider o) in
      let* signature :=
        stringOr (opt_signature o)
          (callHMACSignature cryptoProvider
             (Js.numberToString timestamp ++ "." ++ opt_payload o)
             (opt_secret o)) in
      ret (Js.join "," ["t=" ++ Js.numberToString timestamp;
                        scheme ++ "=" ++ signature])
  end.

End Operations.

(** ** The header grammar as the specification words it

    The second reading of [parseHeader], used to compare the reduction of
    the source with the description by tokens. *)

Definition tokenKey (item : string) : string :=
  nth 0 (Js.split "=" item) EmptyString.

Definition tokenValue (item : string) : option string :=
  nth_error (Js.split "=" item) 1.

(** The timestamp set by the last token whose key is [t], if there is
    one. *)
Fixpoint lastTimestamp (items : list string) (current : Js.number)
  : Js.number :=
  match items with
  | [] => current
  | item :: rest =>
      lastTimestamp rest
        (if String.eqb (tokenKey item) "t"
         then Js.parseInt (Js.toStringValue (tokenValue item))
         else current)
  end.

Definition schemeValues (scheme : string) (items : list string)
  : list (option string) :=
  map tokenValue (filter (fun item => String.eqb (tokenKey item) scheme) items).

Definition parseHeaderSpec (header : string) (scheme : string)
  : WebhookParsedHeader :=
  let items := Js.split "," header in
  {| signatures := schemeValues scheme items;
     timestamp := lastTimestamp items (Js.Int (-1)) |}.

(** A string free of a given code unit. *)
Fixpoint freeOf (c : ascii) (s : string) : bool :=
  match s with
  | EmptyString => true
  | String x rest => negb (Ascii.eqb x c) && freeOf c rest
  end.

(** ** Reading a run *)

Definition thrownMessage {A} (o : Outcome A) : option string :=
  match o with
  | Throw e => Some (message e)
  | Return _ => None
  end.

Definition callArguments (c : HmacCall) : string * string :=
  match c with
  | SyncCall data secret => (data, secret)
  | AsyncCall data secret => (data, secret)
  end.

Section Observations.

Context {host : Host}.

(** The provider that [cryptoProvider || getNodeCryptoProvider()] yields
    in a given world. *)
Definition resolveProvider (cryptoProvider : option StripeCryptoProvider)
  (w : World) : StripeCryptoProvider :=
  match cryptoProvider with
  | Some p => p
  | None =>
      match webhooksNodeCryptoProviderInstance w with
      | Some p => p
      | None => NodeCryptoProvider
      end
  end.

(** The HMAC computed for a header that [parseEventDetails] accepted. *)
Definition expectedSignatureOf (ev : WebhookParsedEvent) (secret : string)
  (cryptoProvider : option StripeCryptoProvider) (w : World) : string :=
  computeHMACSignature (resolveProvider cryptoProvider w)
    (makeHMACContent (decodedPayload ev) (details ev)) secret.

(** The age of a timestamp as [validateComputedSignature] computes it. *)
Definition timestampAge (w : World) (d : WebhookParsedHeader) : Js.number :=
  Js.sub (Js.Int (dateNow w / 1000)) (timestamp d).

(** The world once the provider has been resolved and asked for an HMAC:
    the default provider, if it was needed, is now in the module variable,
    and the call is on record. *)
Definition worldAfterCall (cryptoProvider : option StripeCryptoProvider)
  (w : World) (call : HmacCall) : World :=
  {| dateNow := dateNow w;
     webhooksNodeCryptoProviderInstance :=
       match cryptoProvider with
       | Some _ => webhooksNodeCryptoProviderInstance w
       | None => Some (resolveProvider None w)
       end;
     hmacCalls := hmacCalls w ++ [call] |}.

(** What is left of [validateComputedSignature] once a candidate has
    matched: the tolerance check alone. *)
Definition toleranceCheck (header : option string) (payload : string)
  (tolerance : Js.number) (w : World) (d : WebhookParsedHeader)
  : Outcome bool :=
  if Js.gt tolerance (Js.Int 0) && Js.gt (timestampAge w d) tolerance
  then Throw (timestampOutsideTolerance header payload)
  else Return true.

(** What [JSON.parse] makes of the payload. *)
Definition jsonOutcome (payload : WebhookPayload) : Outcome Json :=
  match JSON_parse (decodePayload payload) with
  | inl e => Throw e
  | inr j => Return j
  end.

End Observations.

(** *** A small host for the examples *)

Definition toyProvider : StripeCryptoProvider :=
  {| computeHMACSignature := fun data secret => secret ++ "/" ++ data;
     computeHMACSignatureAsync := fun data secret => secret ++ "/" ++ data |}.

(** A provider whose signatures are padded with [=], as base64 text is. *)
Definition paddedProvider : StripeCryptoProvider :=
  {| computeHMACSignature := fun data secret => secret ++ "/" ++ data ++ "==";
     computeHMACSignatureAsync :=
       fun data secret => secret ++ "/" ++ data ++ "==" |}.

Definition toyHost : Host :=
  {| Json := string;
     utf8 := fun b => string_of_list_byte b;
     JSON_parse := fun s => inr s;
     NodeCryptoProvider := toyProvider |}.

Definition world0 : World :=
  {| dateNow := 1614556900123;
     webhooksNodeCryptoProviderInstance := None;
     hmacCalls := [] |}.


(** ** Reading a run of the generator *)

Section GeneratorObservations.

Context {host : Host}.







End GeneratorObservations.

(** ** The client object (src/unnamed/part_000)

    The configuration and the application information handed to the client
    are arbitrary values of the language. *)

#[local] Set Warnings "-register-all".

Inductive JsValue : Type :=
| VUndefined
| VNull
| VBoolean (b : bool)
| VNumber (n : Js.number)
| VString (s : string)
| VArray (items : list JsValue)
| VFunction (props : list (string * JsValue))
| VObject (props : list (string * JsValue)).

Definition truthyValue (v : JsValue) : bool :=
  match v with
  | VUndefined | VNull => false
  | VBoolean b => b
  | VNumber n => Js.truthy n
  | VString s => Js.truthyString s
  | VArray _ | VFunction _ | VObject _ => true
  end.

(** [typeof v]. *)
Definition typeOf (v : JsValue) : string :=
  match v with
  | VUndefined => "undefined"
  | VNull => "object"
  | VBoolean _ => "boolean"
  | VNumber _ => "number"
  | VString _ => "string"
  | VArray _ => "object"
  | VFunction _ => "function"
  | VObject _ => "object"
  end.

(** [v === Object(v)]: true of what is not a primitive. *)
Definition isObjectValue (v : JsValue) : bool :=
  match v with
  | VArray _ | VFunction _ | VObject _ => true
  | _ => false
  end.

Definition isArrayValue (v : JsValue) : bool :=
  match v with
  | VArray _ => true
  | _ => false
  end.

(** [Object.keys(v)] of an object or a function, in the order the
    properties are held. *)
Definition objectKeys (v : JsValue) : list string :=
  match v with
  | VObject props | VFunction props => map fst props
  | _ => []
  end.

Fixpoint lookupProp {A} (props : list (string * A)) (key : string)
  : option A :=
  match props with
  | [] => None
  | (k, v) :: rest => if String.eqb k key then Some v else lookupProp rest key
  end.

(** [v[key]] for a property that no prototype defines; an array has its
    indices and its length only. *)
Definition getProp (v : JsValue) (key : string) : JsValue :=
  match v with
  | VObject props =>
      match lookupProp props key with
      | Some x => x
      | None => VUndefined
      end
  | _ => VUndefined
  end.

(** [o[key] = value] on the properties of an object. *)
Fixpoint assignProp {A} (props : list (string * A)) (key : string) (value : A)
  : list (string * A) :=
  match props with
  | [] => [(key, value)]
  | (k, v) :: rest =>
      if String.eqb k key then (k, value) :: rest
      else (k, v) :: assignProp rest key value
  end.

(** [list.includes(x)] on strings. *)
Definition includes (items : list string) (x : string) : bool :=
  existsb (String.eqb x) items.

Definition APP_INFO_PROPERTIES : list string :=
  ["name"; "version"; "url"; "partner_id"].

Definition ALLOWED_CONFIG_PROPERTIES : list string :=
  ["apiVersion"; "typescript"; "maxNetworkRetries"; "httpAgent";
   "httpClient"; "timeout"; "host"; "port"; "protocol"; "telemetry";
   "appInfo"; "stripeAccount"].

Definition plainError (msg : string) : Exception :=
  {| errorClass := PlainError; message := msg; detail := None |}.

Definition configShapeError : Exception :=
  plainError "Config must either be an object or a string".

Definition configKeysError : Exception :=
  plainError ("Config object may only contain the following: "
              ++ Js.join ", " ALLOWED_CONFIG_PROPERTIES).

Definition appInfoNotObject : Exception :=
  plainError "AppInfo must be an object.".

Definition appInfoNameRequired : Exception :=
  plainError "AppInfo.name is required".

(** [_getPropsFromConfig]. *)
Definition _getPropsFromConfig (config : JsValue) : Outcome JsValue :=
  if negb (truthyValue config) then Return (VObject [])
  else
    let isString := String.eqb (typeOf config) "string" in
    let isObject := isObjectValue config && negb (isArrayValue config) in
    if negb isObject && negb isString then Throw configShapeError
    else if isString then Return (VObject [("apiVersion", config)])
    else
      let values :=
        filter (fun value => negb (includes ALLOWED_CONFIG_PROPERTIES value))
          (objectKeys config) in
      if (0 <? List.length values)%nat then Throw configKeysError
      else Return config.

(** The application information the client keeps: the properties copied
    by [_setAppInfo], which are strings. *)
Definition AppInfo : Type := list (string * string).

(** The part of the client that [_setAppInfo] writes and
    [getAppInfoAsString] reads; [None] is [undefined]. *)
Record StripeObject : Type := {
  _appInfo : option AppInfo
}.

(** The callback of the reduction in [_setAppInfo]. *)
Definition appInfoStep (info : JsValue) (accum : option AppInfo)
  (prop : string) : option AppInfo :=
  match getProp info prop with
  | VString s =>
      Some (assignProp (match accum with Some a => a | None => [] end) prop s)
  | _ => accum
  end.

Definition _setAppInfo (this : StripeObject) (info : JsValue)
  : Outcome StripeObject :=
  if truthyValue info && negb (String.eqb (typeOf info) "object")
  then Throw appInfoNotObject
  else if truthyValue info && negb (truthyValue (getProp info "name"))
  then Throw appInfoNameRequired
  else
    let info := if truthyValue info then info else VObject [] in
    Return {| _appInfo := fold_left (appInfoStep info) APP_INFO_PROPERTIES None |}.

(** [formatted += text], where [formatted] may still be [undefined]. *)
Definition appendTo (formatted : option string) (text : string)
  : option string :=
  Some (Js.toStringValue formatted ++ text).

(** [getAppInfoAsString]; [None] is [undefined], the value of a missing
    [name]. *)
Definition getAppInfoAsString (this : StripeObject) : option string :=
  match _appInfo this with
  | None => Some ""
  | Some appInfo =>
      let formatted := lookupProp appInfo "name" in
      let formatted :=
        match lookupProp appInfo "version" with
        | Some version =>
            if Js.truthyString version
            then appendTo formatted ("/" ++ version) else formatted
        | None => formatted
        end in
      match lookupProp appInfo "url" with
      | Some url =>
          if Js.truthyString url
          then appendTo formatted (" (" ++ url ++ ")") else formatted
      | None => formatted
      end
  end.

(** A property of [info] when it is a string. *)
Definition stringProp (info : JsValue) (prop : string) : option string :=
  match getProp info prop with
  | VString s => Some s
  | _ => None
  end.

(** The text [getAppInfoAsString] adds for a property of [info]: nothing
    unless the property is a string that is not empty. *)
Definition textOfProp (info : JsValue) (prop : string)
  (render : string -> string) : string :=
  match getProp info prop with
  | VString s => if Js.truthyString s then render s else ""
  | _ => ""
  end.

(** ** Facts about the host primitives *)

Example split_example :
  Js.split "," "t=1,v1=ab,,x" = ["t=1"; "v1=ab"; ""; "x"].
Proof. reflexivity. Qed.

Example parseInt_examples :
  Js.parseInt "1614556800" = Js.Int 1614556800 /\
  Js.parseInt "  -42abc" = Js.Int (-42) /\
  Js.parseInt "abc" = Js.NaN /\
  Js.parseInt "" = Js.NaN /\
  Js.parseInt (Js.toStringValue None) = Js.NaN.
Proof. repeat split; reflexivity. Qed.

Example numberToString_examples :
  Js.numberToString (Js.Int 1614556800) = "1614556800" /\
  Js.numberToString (Js.Int 0) = "0" /\
  Js.numberToString (Js.Int (-1)) = "-1" /\
  Js.numberToString Js.NaN = "NaN".
Proof. repeat split; reflexivity. Qed.

Lemma freeOf_app c a b :
  freeOf c (a ++ b) = freeOf c a && freeOf c b.
Proof.
  induction a as [|x a IH]; simpl; [reflexivity|].
  rewrite IH. now rewrite andb_assoc.
Qed.

Lemma split_free sep s :
  freeOf sep s = true -> Js.split sep s = [s].
Proof.
  induction s as [|c s IH]; simpl; [reflexivity|].
  intros H. apply andb_true_iff in H as [Hc Hs].
  apply negb_true_iff in Hc. rewrite Hc, (IH Hs). reflexivity.
Qed.

Lemma split_app sep a b :
  freeOf sep a = true ->
  Js.split sep (a ++ String sep b) = a :: Js.split sep b.
Proof.
  induction a as [|c a IH]; simpl.
  - intros _. now rewrite Ascii.eqb_refl.
  - intros H. apply andb_true_iff in H as [Hc Ha].
    apply negb_true_iff in Hc. rewrite Hc, (IH Ha). reflexivity.
Qed.


(** The part of a token before its first separator is free of it. *)
Lemma split_head_free sep s :
  freeOf sep (nth 0 (Js.split sep s) EmptyString) = true.
Proof.
  induction s as [|c s IH]; simpl; [reflexivity|].
  destruct (Ascii.eqb c sep) eqn:E; simpl; [reflexivity|].
  destruct (Js.split sep s) as [|w ws]; simpl in *; rewrite E; simpl; auto.
Qed.

Ltac digit_cases d :=
  let H := fresh in
  assert (H : d = 0 \/ d = 1 \/ d = 2 \/ d = 3 \/ d = 4 \/ d = 5 \/ d = 6
              \/ d = 7 \/ d = 8 \/ d = 9) by lia;
  repeat (destruct H as [H | H]); subst d.

Lemma digitValue_digitChar d :
  0 <= d < 10 -> Js.digitValue (Js.digitChar d) = Some d.
Proof. intros Hd. digit_cases d; reflexivity. Qed.

Lemma digitChar_neq d c :
  0 <= d < 10 -> Js.digitValue c = None -> Ascii.eqb (Js.digitChar d) c = false.
Proof.
  intros Hd Hc. destruct (Ascii.eqb (Js.digitChar d) c) eqn:E; [|reflexivity].
  apply Ascii.eqb_eq in E. subst c.
  rewrite (digitValue_digitChar d Hd) in Hc. discriminate.
Qed.

Lemma mod10_range n : 0 <= n mod 10 < 10.
Proof. apply Z.mod_pos_bound. lia. Qed.

Lemma decimalDigits_free c fuel :
  Js.digitValue c = None ->
  forall n acc,
    freeOf c acc = true -> freeOf c (Js.decimalDigits fuel n acc) = true.
Proof.
  intros Hc. induction fuel as [|fuel IH]; intros n acc Hacc; simpl; [exact Hacc|].
  assert (Hstep : freeOf c (String (Js.digitChar (n mod 10)) acc) = true).
  { simpl. rewrite (digitChar_neq _ c (mod10_range n) Hc). exact Hacc. }
  destruct (n <? 10); [exact Hstep|].
  apply IH. exact Hstep.
Qed.

Lemma decimalDigits_head fuel :
  forall n acc, exists d rest,
    0 <= d < 10 /\
    Js.decimalDigits (S fuel) n acc = String (Js.digitChar d) rest.
Proof.
  induction fuel as [|fuel IH]; intros n acc.
  - exists (n mod 10), acc. split; [apply mod10_range|].
    simpl. now destruct (n <? 10).
  - change (Js.decimalDigits (S (S fuel)) n acc)
      with (if n <? 10 then String (Js.digitChar (n mod 10)) acc
            else Js.decimalDigits (S fuel) (n / 10)
                   (String (Js.digitChar (n mod 10)) acc)).
    destruct (n <? 10).
    + exists (n mod 10), acc. split; [apply mod10_range|reflexivity].
    + apply IH.
Qed.

(** Reading back the digits that were written. *)
Lemma digitsPrefix_decimalDigits fuel :
  forall n acc a,
    0 <= n < 2 ^ Z.of_nat (S fuel) ->
    a = None \/ a = Some 0 ->
    Js.digitsPrefix (Js.decimalDigits (S fuel) n acc) a =
    Js.digitsPrefix acc (Some n).
Proof.
  assert (Hsmall : forall n acc a,
             0 <= n < 10 -> a = None \/ a = Some 0 ->
             Js.digitsPrefix (String (Js.digitChar (n mod 10)) acc) a =
             Js.digitsPrefix acc (Some n)).
  { intros n acc a Hn Ha. cbn [Js.digitsPrefix].
    rewrite Z.mod_small by lia. rewrite digitValue_digitChar by lia.
    destruct Ha; subst a; f_equal; f_equal; lia. }
  induction fuel as [|fuel IH]; intros n acc a Hn Ha.
  - assert (Hlt : (n <? 10) = true)
      by (apply Z.ltb_lt; change (2 ^ Z.of_nat 1) with 2 in Hn; lia).
    cbn [Js.decimalDigits]. rewrite Hlt. apply Hsmall; [|exact Ha].
    apply Z.ltb_lt in Hlt. lia.
  - change (Js.decimalDigits (S (S fuel)) n acc)
      with (if n <? 10 then String (Js.digitChar (n mod 10)) acc
            else Js.decimalDigits (S fuel) (n / 10)
                   (String (Js.digitChar (n mod 10)) acc)).
    destruct (n <? 10) eqn:Hlt.
    + apply Z.ltb_lt in Hlt. apply Hsmall; [lia|exact Ha].
    + apply Z.ltb_ge in Hlt.
      rewrite IH.
      * cbn [Js.digitsPrefix].
        rewrite digitValue_digitChar by apply mod10_range.
        f_equal. f_equal. pose proof (Z.div_mod n 10 ltac:(lia)). lia.
      * split; [apply Z.div_pos; lia|].
        apply Z.div_lt_upper_bound; [lia|].
        replace (Z.of_nat (S (S fuel))) with (Z.succ (Z.of_nat (S fuel)))
          in Hn by lia.
        rewrite Z.pow_succ_r in Hn by lia. lia.
      * exact Ha.
Qed.

Lemma digitsPrefix_decimal n :
  0 <= n -> Js.digitsPrefix (Js.decimal n) None = Some n.
Proof.
  intros Hn. unfold Js.decimal.
  rewrite digitsPrefix_decimalDigits; [reflexivity| |now left].
  split; [exact Hn|].
  rewrite Nat2Z.inj_succ, Z2Nat.id by apply Z.log2_nonneg.
  destruct (Z.eq_dec n 0) as [->|Hz]; [reflexivity|].
  apply Z.log2_spec. lia.
Qed.

Lemma parseInt_digit_head s :
  (exists d rest, 0 <= d < 10 /\ s = String (Js.digitChar d) rest) ->
  Js.parseInt s =
  match Js.digitsPrefix s None with
  | None => Js.NaN
  | Some m => Js.Int (1 * m)
  end.
Proof.
  intros (d & rest & Hd & ->). digit_cases d; reflexivity.
Qed.

(** A number written in decimal is read back by [parseInt]. *)
Lemma parseInt_numberToString z :
  Js.parseInt (Js.numberToString (Js.Int z)) = Js.Int z.
Proof.
  unfold Js.numberToString. destruct (z <? 0) eqn:Hneg.
  - apply Z.ltb_lt in Hneg.
    change (Js.parseInt (String "-" (Js.decimal (- z))))
      with (match Js.digitsPrefix (Js.decimal (- z)) None with
            | None => Js.NaN
            | Some m => Js.Int (-1 * m)
            end).
    rewrite digitsPrefix_decimal by lia. f_equal. lia.
  - apply Z.ltb_ge in Hneg.
    rewrite parseInt_digit_head by apply decimalDigits_head.
    rewrite digitsPrefix_decimal by lia. f_equal. lia.
Qed.

Lemma numberToString_free c z :
  Js.digitValue c = None -> c <> "-"%char ->
  freeOf c (Js.numberToString (Js.Int z)) = true.
Proof.
  intros Hc Hminus. unfold Js.numberToString, Js.decimal.
  destruct (z <? 0).
  - assert (E : Ascii.eqb "-" c = false) by (apply Ascii.eqb_neq; congruence).
    cbn [freeOf]. rewrite E. now apply decimalDigits_free.
  - now apply decimalDigits_free.
Qed.

Lemma secureCompareBytes_eqb a :
  forall b same, secureCompareBytes a b same = same && String.eqb a b.
Proof.
  induction a as [|x a IH]; intros [|y b] same; simpl;
    try (now rewrite ?andb_true_r, ?andb_false_r).
  rewrite IH. destruct (Ascii.eqb x y); simpl;
    now rewrite ?andb_true_r, ?andb_false_r.
Qed.

(** The comparison accepts a candidate exactly when it is the expected
    signature. *)
Lemma secureCompare_true a b :
  secureCompare a b = true <-> b = Some a.
Proof.
  destruct b as [s|]; simpl.
  - rewrite secureCompareBytes_eqb. simpl. rewrite String.eqb_eq.
    split; [intros ->; reflexivity|intros [= ->]; reflexivity].
  - split; discriminate.
Qed.

(** ** The header parser *)

Section ParserFacts.

Lemma lastTimestamp_app a b cur :
  lastTimestamp (a ++ b)%list cur = lastTimestamp b (lastTimestamp a cur).
Proof.
  revert cur. induction a as [|x a IH]; intros cur; simpl; [reflexivity|].
  apply IH.
Qed.

Lemma lastTimestamp_none items cur :
  (forall x, In x items -> tokenKey x <> "t") ->
  lastTimestamp items cur = cur.
Proof.
  revert cur. induction items as [|x items IH]; intros cur H; simpl;
    [reflexivity|].
  assert (E : String.eqb (tokenKey x) "t" = false)
    by (apply String.eqb_neq, H; now left).
  rewrite E. apply IH. intros y Hy. apply H. now right.
Qed.

Lemma schemeValues_app scheme a b :
  schemeValues scheme (a ++ b)%list =
  (schemeValues scheme a ++ schemeValues scheme b)%list.
Proof. unfold schemeValues. now rewrite filter_app, map_app. Qed.

(** The reduction of the source, token by token, against the description
    of the header grammar. *)
Lemma parseHeader_fold scheme items :
  forall accum,
    fold_left (parseHeaderStep scheme) items accum =
    {| signatures := (signatures accum ++ schemeValues scheme items)%list;
       timestamp := lastTimestamp items (timestamp accum) |}.
Proof.
  induction items as [|item items IH]; intros [sigs ts].
  - simpl. unfold schemeValues. simpl. now rewrite app_nil_r.
  - cbn [fold_left]. rewrite IH. unfold parseHeaderStep.
    fold (tokenKey item). fold (tokenValue item).
    unfold schemeValues. cbn [lastTimestamp filter].
    destruct (String.eqb (tokenKey item) "t");
      destruct (String.eqb (tokenKey item) scheme);
      cbn [signatures timestamp map]; rewrite <- ?app_assoc; reflexivity.
Qed.

Lemma parseHeader_spec header scheme :
  parseHeader (Some header) scheme = Some (parseHeaderSpec header scheme).
Proof.
  unfold parseHeader, parseHeaderSpec. now rewrite parseHeader_fold.
Qed.

(** C4.  [parseHeader] on a string splits it on [,] and scans the tokens:
    the signatures are the values of the tokens whose key is the scheme, in
    the order met; the timestamp is that of the last token whose key is
    [t], and stays at [-1] without one; a token with another key changes
    nothing.  The header [t=1614556800,v1=deadbeef] parses to the timestamp
    1614556800 and the one signature [deadbeef]. *)
Theorem parseHeader_scans_tokens (header scheme : string) :
  exists d,
    parseHeader (Some header) scheme = Some d /\
    signatures d = schemeValues scheme (Js.split "," header) /\
    (forall before item after,
        Js.split "," header = (before ++ item :: after)%list ->
        tokenKey item = "t" ->
        (forall x, In x after -> tokenKey x <> "t") ->
        timestamp d = Js.parseInt (Js.toStringValue (tokenValue item))) /\
    ((forall x, In x (Js.split "," header) -> tokenKey x <> "t") ->
     timestamp d = Js.Int (-1)) /\
    (forall before item after,
        Js.split "," header = (before ++ item :: after)%list ->
        tokenKey item <> "t" -> tokenKey item <> scheme ->
        fold_left (parseHeaderStep scheme) (before ++ after)%list
          {| signatures := []; timestamp := Js.Int (-1) |} = d) /\
    parseHeader (Some "t=1614556800,v1=deadbeef") "v1" =
    Some {| signatures := [Some "deadbeef"];
            timestamp := Js.Int 1614556800 |}.
Proof.
  exists (parseHeaderSpec header scheme).
  split; [apply parseHeader_spec|].
  split; [reflexivity|].
  split; [|split; [|split; [|reflexivity]]].
  - intros before item after Hsplit Hkey Hafter.
    unfold parseHeaderSpec. cbn [timestamp]. rewrite Hsplit.
    rewrite lastTimestamp_app. cbn [lastTimestamp].
    rewrite Hkey. cbn [String.eqb Ascii.eqb Bool.eqb].
    now apply lastTimestamp_none.
  - intros Hnone. unfold parseHeaderSpec. cbn [timestamp].
    now apply lastTimestamp_none.
  - intros before item after Hsplit Ht Hscheme.
    rewrite parseHeader_fold. unfold parseHeaderSpec. rewrite Hsplit.
    apply String.eqb_neq in Ht, Hscheme.
    cbn [signatures timestamp app]. f_equal.
    + rewrite !schemeValues_app. f_equal.
      unfold schemeValues. cbn [filter]. now rewrite Hscheme.
    + rewrite !lastTimestamp_app. cbn [lastTimestamp]. now rewrite Ht.
Qed.


Lemma split_key_value key value :
  freeOf "=" key = true -> freeOf "=" value = true ->
  Js.split "=" (key ++ "=" ++ value) = [key; value].
Proof.
  intros Hk Hv. change (key ++ "=" ++ value) with (key ++ String "=" value).
  rewrite split_app by exact Hk. now rewrite split_free.
Qed.

Lemma split_key_value_rest key value rest :
  freeOf "=" key = true -> freeOf "=" value = true ->
  Js.split "=" (key ++ "=" ++ value ++ "=" ++ rest) =
  key :: value :: Js.split "=" rest.
Proof.
  intros Hk Hv.
  change (key ++ "=" ++ value ++ "=" ++ rest)
    with (key ++ String "=" (value ++ String "=" rest)).
  now rewrite !split_app.
Qed.

(** C5, as the code has it.  A token is split on every [=]: its key is the
    text before the first [=] and its value the text between the first and
    the second [=].  The value is the whole remainder of the token only
    when that remainder holds no further [=]. *)
Theorem token_value_ends_at_second_equals
  (scheme value rest : string) (accum : WebhookParsedHeader) :
  freeOf "=" scheme = true ->
  freeOf "=" value = true ->
  signatures (parseHeaderStep scheme accum (scheme ++ "=" ++ value)) =
    (signatures accum ++ [Some value])%list /\
  signatures
    (parseHeaderStep scheme accum (scheme ++ "=" ++ value ++ "=" ++ rest)) =
    (signatures accum ++ [Some value])%list.
Proof.
  intros Hk Hv. unfold parseHeaderStep.
  rewrite split_key_value, split_key_value_rest by assumption.
  cbn [nth nth_error]. rewrite String.eqb_refl.
  split; destruct (String.eqb scheme "t"); reflexivity.
Qed.

Lemma token_value_ends_at_second_equals_witness :
  signatures
    (parseHeaderStep "v1" {| signatures := []; timestamp := Js.Int 5 |}
       "v1=abc=def") = [Some "abc"].
Proof.
  apply (token_value_ends_at_second_equals "v1" "abc" "def"
           {| signatures := []; timestamp := Js.Int 5 |});
    reflexivity.
Defined.

(** C5, as the claim has it, fails: of the token [v1=abc=def] only [abc] is
    recorded, not the remainder [abc=def]. *)
Lemma value_is_not_the_whole_remainder :
  exists d,
    parseHeader (Some "t=1614556800,v1=abc=def") "v1" = Some d /\
    signatures d = [Some "abc"] /\
    signatures d <> [Some "abc=def"].
Proof.
  eexists. split; [reflexivity|]. split; [reflexivity|discriminate].
Qed.

End ParserFacts.

(** ** The verifier *)

Section VerifierFacts.

Context {host : Host}.

Lemma strictEq_Int a z : Js.strictEq a (Js.Int z) = true <-> a = Js.Int z.
Proof.
  destruct a as [|x]; simpl; [split; discriminate|].
  rewrite Z.eqb_eq. split; [now intros ->|now intros [= ->]].
Qed.

Lemma strictEq_Int_false a z :
  Js.strictEq a (Js.Int z) = false <-> a <> Js.Int z.
Proof.
  rewrite <- strictEq_Int. destruct (Js.strictEq a (Js.Int z)); split;
    congruence.
Qed.

Lemma signatureFound_In d expected :
  signatureFound d expected = true <-> In (Some expected) (signatures d).
Proof.
  unfold signatureFound.
  destruct (filter (secureCompare expected) (signatures d)) as [|x l] eqn:E.
  - split; [discriminate|]. intros Hin.
    assert (H : In (Some expected) (filter (secureCompare expected) (signatures d)))
      by (apply filter_In; split; [exact Hin|now apply secureCompare_true]).
    rewrite E in H. destruct H.
  - split; [intros _|reflexivity].
    assert (H : In x (filter (secureCompare expected) (signatures d)))
      by (rewrite E; now left).
    apply filter_In in H as [Hin Hx].
    apply secureCompare_true in Hx. now subst x.
Qed.

(** [parseEventDetails] neither reads nor changes the world, and what it
    returns is the decoded input with the parsed header. *)
Lemma parseEventDetails_cases payload header scheme w :
  parseEventDetails payload header scheme w =
  (if isArray header then Throw arrayHeader
   else match parseHeader (decodeHeader header) scheme with
        | None => Throw (unableToExtract (decodeHeader header)
                           (decodePayload payload))
        | Some d =>
            if Js.strictEq (timestamp d) (Js.Int (-1))
            then Throw (unableToExtract (decodeHeader header)
                          (decodePayload payload))
            else if (List.length (signatures d) =? 0)%nat
            then Throw (noSignaturesWithScheme (decodeHeader header)
                          (decodePayload payload))
            else Return {| details := d;
                           decodedPayload := decodePayload payload;
                           decodedHeader := decodeHeader header |}
        end, w).
Proof.
  unfold parseEventDetails. destruct (isArray header); [reflexivity|].
  destruct (parseHeader (decodeHeader header) scheme) as [d|]; [|reflexivity].
  destruct (Js.strictEq (timestamp d) (Js.Int (-1))); [reflexivity|].
  destruct (List.length (signatures d) =? 0)%nat; reflexivity.
Qed.

Lemma parseEventDetails_world payload header scheme w :
  snd (parseEventDetails payload header scheme w) = w.
Proof. now rewrite parseEventDetails_cases. Qed.

Lemma parseEventDetails_accepted payload header scheme w ev w' :
  parseEventDetails payload header scheme w = (Return ev, w') ->
  w' = w /\
  isArray header = false /\
  parseHeader (decodeHeader header) scheme = Some (details ev) /\
  timestamp (details ev) <> Js.Int (-1) /\
  signatures (details ev) <> [] /\
  decodedPayload ev = decodePayload payload /\
  decodedHeader ev = decodeHeader header.
Proof.
  rewrite parseEventDetails_cases.
  destruct (isArray header); [discriminate|].
  destruct (parseHeader (decodeHeader header) scheme) as [d|]; [|discriminate].
  destruct (Js.strictEq (timestamp d) (Js.Int (-1))) eqn:Ets; [discriminate|].
  destruct (List.length (signatures d) =? 0)%nat eqn:Elen; [discriminate|].
  intros [= <- <-]. cbn [details decodedPayload decodedHeader].
  repeat split; try reflexivity.
  - now apply strictEq_Int_false.
  - intros E. rewrite E in Elen. discriminate.
Qed.

Lemma validateComputedSignature_run payload header d expected tolerance w :
  validateComputedSignature payload header d expected tolerance w =
  (if signatureFound d expected
   then toleranceCheck header payload tolerance w d
   else Throw (noMatchingSignature header payload), w).
Proof.
  unfold validateComputedSignature, toleranceCheck, timestampAge.
  destruct (signatureFound d expected); [|reflexivity].
  cbn [negb]. unfold bind, unixNow.
  destruct (Js.gt tolerance (Js.Int 0)
            && Js.gt (Js.sub (Js.Int (dateNow w / 1000)) (timestamp d)) tolerance);
    reflexivity.
Qed.

(** The whole of a verification of a header that was accepted. *)
Lemma verifyHeader_accepted payload header secret tolerance cp w ev :
  parseEventDetails payload header EXPECTED_SCHEME w = (Return ev, w) ->
  verifyHeader payload header secret tolerance cp w =
  (if signatureFound (details ev) (expectedSignatureOf ev secret cp w)
   then toleranceCheck (decodedHeader ev) (decodedPayload ev) tolerance w
          (details ev)
   else Throw (noMatchingSignature (decodedHeader ev) (decodedPayload ev)),
   worldAfterCall cp w
     (SyncCall (makeHMACContent (decodedPayload ev) (details ev)) secret)).
Proof.
  intros Hparse. unfold verifyHeader, bind. rewrite Hparse.
  unfold expectedSignatureOf, worldAfterCall, resolveProvider.
  destruct cp as [p|]; cbn [providerOrDefault ret getNodeCryptoProvider].
  - unfold callHMACSignature. rewrite validateComputedSignature_run.
    unfold toleranceCheck, timestampAge. cbn [dateNow].
    destruct (signatureFound _ _); [|reflexivity].
    destruct (_ && _); reflexivity.
  - unfold getNodeCryptoProvider.
    destruct (webhooksNodeCryptoProviderInstance w) as [p|] eqn:Einst;
      unfold callHMACSignature; rewrite validateComputedSignature_run;
      unfold toleranceCheck, timestampAge; cbn [dateNow hmacCalls
        webhooksNodeCryptoProviderInstance]; rewrite ?Einst;
      (destruct (signatureFound _ _); [|reflexivity]);
      destruct (_ && _); reflexivity.
Qed.

Lemma verifyHeaderAsync_accepted payload header secret tolerance cp w ev :
  parseEventDetails payload header EXPECTED_SCHEME w = (Return ev, w) ->
  verifyHeaderAsync payload header secret tolerance cp w =
  (if signatureFound (details ev)
        (computeHMACSignatureAsync (resolveProvider cp w)
           (makeHMACContent (decodedPayload ev) (details ev)) secret)
   then toleranceCheck (decodedHeader ev) (decodedPayload ev) tolerance w
          (details ev)
   else Throw (noMatchingSignature (decodedHeader ev) (decodedPayload ev)),
   worldAfterCall cp w
     (AsyncCall (makeHMACContent (decodedPayload ev) (details ev)) secret)).
Proof.
  intros Hparse. unfold verifyHeaderAsync, bind. rewrite Hparse.
  unfold worldAfterCall, resolveProvider.
  destruct cp as [p|]; cbn [providerOrDefault ret getNodeCryptoProvider].
  - unfold callHMACSignatureAsync. rewrite validateComputedSignature_run.
    unfold toleranceCheck, timestampAge. cbn [dateNow].
    reflexivity.
  - unfold getNodeCryptoProvider.
    destruct (webhooksNodeCryptoProviderInstance w) as [p|] eqn:Einst;
      unfold callHMACSignatureAsync; rewrite validateComputedSignature_run;
      unfold toleranceCheck, timestampAge; cbn [dateNow hmacCalls
        webhooksNodeCryptoProviderInstance]; rewrite ?Einst; reflexivity.
Qed.

Lemma verifyHeader_rejected payload header secret tolerance cp w e :
  parseEventDetails payload header EXPECTED_SCHEME w = (Throw e, w) ->
  verifyHeader payload header secret tolerance cp w = (Throw e, w).
Proof. intros H. unfold verifyHeader, bind. now rewrite H. Qed.

Lemma verifyHeaderAsync_rejected payload header secret tolerance cp w e :
  parseEventDetails payload header EXPECTED_SCHEME w = (Throw e, w) ->
  verifyHeaderAsync payload header secret tolerance cp w = (Throw e, w).
Proof. intros H. unfold verifyHeaderAsync, bind. now rewrite H. Qed.

(** C3.  A header whose parse has the timestamp [-1] is refused with the
    error "Unable to extract timestamp and signatures from header"; one
    with a timestamp but no signature under the expected scheme is refused
    with the other error, "No signatures found with expected scheme".  In
    both cases the world is left as it was: no crypto provider has been
    resolved and none has been called. *)
Theorem structural_failures_precede_hmac
  (payload : WebhookPayload) (header : WebhookHeader) (secret : string)
  (tolerance : Js.number) (cp : option StripeCryptoProvider) (w : World)
  (d : WebhookParsedHeader) :
  isArray header = false ->
  parseHeader (decodeHeader header) EXPECTED_SCHEME = Some d ->
  (timestamp d = Js.Int (-1) ->
   verifyHeader payload header secret tolerance cp w =
   (Throw (unableToExtract (decodeHeader header) (decodePayload payload)), w))
  /\
  (timestamp d <> Js.Int (-1) -> signatures d = [] ->
   verifyHeader payload header secret tolerance cp w =
   (Throw (noSignaturesWithScheme (decodeHeader header)
             (decodePayload payload)), w))
  /\
  message (unableToExtract (decodeHeader header) (decodePayload payload)) =
    "Unable to extract timestamp and signatures from header"
  /\
  message (noSignaturesWithScheme (decodeHeader header)
             (decodePayload payload)) <>
  message (unableToExtract (decodeHeader header) (decodePayload payload)).
Proof.
  intros Harr Hparse.
  split; [|split; [|split; [reflexivity|discriminate]]].
  - intros Hts. apply verifyHeader_rejected.
    rewrite parseEventDetails_cases, Harr, Hparse.
    apply strictEq_Int in Hts. now rewrite Hts.
  - intros Hts Hsigs. apply verifyHeader_rejected.
    rewrite parseEventDetails_cases, Harr, Hparse.
    apply strictEq_Int_false in Hts. now rewrite Hts, Hsigs.
Qed.

(** C2.  The error "Timestamp outside the tolerance zone" is thrown exactly
    when the header was accepted, one of its candidates is the computed
    HMAC, the tolerance is above zero and the age of the timestamp is above
    the tolerance.  An age equal to the tolerance passes; a tolerance that
    is not above zero switches the check off whatever the timestamp; and
    when no candidate is the computed HMAC the error is the one about the
    signature, whatever the timestamp and the tolerance. *)
Theorem timestamp_error_iff
  (payload : WebhookPayload) (header : WebhookHeader) (secret : string)
  (tolerance : Js.number) (cp : option StripeCryptoProvider) (w : World) :
  let out := fst (verifyHeader payload header secret tolerance cp w) in
  (thrownMessage out = Some "Timestamp outside the tolerance zone" <->
   exists ev,
     parseEventDetails payload header EXPECTED_SCHEME w = (Return ev, w) /\
     In (Some (expectedSignatureOf ev secret cp w)) (signatures (details ev)) /\
     Js.gt tolerance (Js.Int 0) = true /\
     Js.gt (timestampAge w (details ev)) tolerance = true)
  /\
  (forall ev,
      parseEventDetails payload header EXPECTED_SCHEME w = (Return ev, w) ->
      In (Some (expectedSignatureOf ev secret cp w)) (signatures (details ev)) ->
      timestampAge w (details ev) = tolerance ->
      out = Return true)
  /\
  (forall ev,
      parseEventDetails payload header EXPECTED_SCHEME w = (Return ev, w) ->
      In (Some (expectedSignatureOf ev secret cp w)) (signatures (details ev)) ->
      Js.gt tolerance (Js.Int 0) = false ->
      out = Return true)
  /\
  (forall ev,
      parseEventDetails payload header EXPECTED_SCHEME w = (Return ev, w) ->
      ~ In (Some (expectedSignatureOf ev secret cp w))
          (signatures (details ev)) ->
      out = Throw (noMatchingSignature (decodedHeader ev) (decodedPayload ev))).
Proof.
  cbv zeta.
  assert (Hgt_irrefl : forall a, Js.gt a a = false)
    by (intros [|z]; simpl; [reflexivity|apply Z.ltb_irrefl]).
  split; [|split; [|split]].
  - destruct (parseEventDetails payload header EXPECTED_SCHEME w)
      as [[ev|e] w'] eqn:Hparse.
    + assert (w' = w) by (now apply parseEventDetails_accepted in Hparse).
      subst w'. rewrite (verifyHeader_accepted _ _ _ _ _ _ _ Hparse).
      cbn [fst]. unfold toleranceCheck.
      destruct (signatureFound (details ev) (expectedSignatureOf ev secret cp w))
        eqn:Hfound.
      * apply signatureFound_In in Hfound.
        destruct (Js.gt tolerance (Js.Int 0)) eqn:Htol;
          destruct (Js.gt (timestampAge w (details ev)) tolerance) eqn:Hage;
          cbn [andb thrownMessage];
          (split; [intros Hmsg; try discriminate; exists ev; auto
                  |intros (ev' & Hev' & _ & Htol' & Hage');
                   injection Hev' as <-;
                   first [reflexivity|congruence]]).
      * split; [discriminate|].
        intros (ev' & Hev' & Hin & _). injection Hev' as <-.
        apply signatureFound_In in Hin. congruence.
    + assert (w' = w)
        by (pose proof (parseEventDetails_world payload header
                          EXPECTED_SCHEME w) as Hw;
            now rewrite Hparse in Hw).
      subst w'. rewrite (verifyHeader_rejected _ _ _ _ _ _ _ Hparse).
      cbn [fst thrownMessage]. split.
      * intros Hmsg. exfalso. revert Hparse Hmsg.
        rewrite parseEventDetails_cases.
        destruct (isArray header); [intros [= <-]; discriminate|].
        destruct (parseHeader (decodeHeader header) EXPECTED_SCHEME) as [d|];
          [|intros [= <-]; discriminate].
        destruct (Js.strictEq (timestamp d) (Js.Int (-1)));
          [intros [= <-]; discriminate|].
        destruct (List.length (signatures d) =? 0)%nat;
          [intros [= <-]; discriminate|discriminate].
      * intros (ev & Hev & _). discriminate.
  - intros ev Hparse Hin Hage.
    rewrite (verifyHeader_accepted _ _ _ _ _ _ _ Hparse). cbn [fst].
    apply signatureFound_In in Hin. rewrite Hin.
    unfold toleranceCheck. rewrite Hage, Hgt_irrefl, andb_false_r.
    reflexivity.
  - intros ev Hparse Hin Htol.
    rewrite (verifyHeader_accepted _ _ _ _ _ _ _ Hparse). cbn [fst].
    apply signatureFound_In in Hin. rewrite Hin.
    unfold toleranceCheck. rewrite Htol. reflexivity.
  - intros ev Hparse Hnot.
    rewrite (verifyHeader_accepted _ _ _ _ _ _ _ Hparse). cbn [fst].
    destruct (signatureFound (details ev) (expectedSignatureOf ev secret cp w))
      eqn:Hfound; [|reflexivity].
    apply signatureFound_In in Hfound. contradiction.
Qed.

(** C7.  When the candidates of an accepted header hold the computed HMAC,
    wherever it stands among them and whatever the others are, the
    signature is found, and what [verifyHeader] does is what the tolerance
    check alone does: it returns [true] unless the timestamp is outside a
    tolerance above zero. *)
Theorem any_matching_candidate_suffices
  (payload : WebhookPayload) (header : WebhookHeader) (secret : string)
  (tolerance : Js.number) (cp : option StripeCryptoProvider) (w : World)
  (ev : WebhookParsedEvent) (before after : list (option string)) :
  parseEventDetails payload header EXPECTED_SCHEME w = (Return ev, w) ->
  signatures (details ev) =
    (before ++ Some (expectedSignatureOf ev secret cp w) :: after)%list ->
  signatureFound (details ev) (expectedSignatureOf ev secret cp w) = true /\
  fst (verifyHeader payload header secret tolerance cp w) =
    toleranceCheck (decodedHeader ev) (decodedPayload ev) tolerance w
      (details ev) /\
  (Js.gt tolerance (Js.Int 0)
   && Js.gt (timestampAge w (details ev)) tolerance = false ->
   fst (verifyHeader payload header secret tolerance cp w) = Return true).
Proof.
  intros Hparse Hsigs.
  assert (Hfound :
            signatureFound (details ev) (expectedSignatureOf ev secret cp w)
            = true).
  { apply signatureFound_In. rewrite Hsigs. apply in_elt. }
  rewrite (verifyHeader_accepted _ _ _ _ _ _ _ Hparse), Hfound. cbn [fst].
  split; [reflexivity|]. split; [reflexivity|].
  intros Hin. unfold toleranceCheck. now rewrite Hin.
Qed.

(** C8.  With a provider whose two methods compute the same function,
    [verifyHeaderAsync] and [verifyHeader] return the same value or throw
    the same exception, and leave the same world but for the name of the
    method on record. *)
Theorem verifyHeaderAsync_agrees
  (payload : WebhookPayload) (header : WebhookHeader) (secret : string)
  (tolerance : Js.number) (cp : option StripeCryptoProvider) (w : World) :
  (forall data key,
      computeHMACSignatureAsync (resolveProvider cp w) data key =
      computeHMACSignature (resolveProvider cp w) data key) ->
  let async := verifyHeaderAsync payload header secret tolerance cp w in
  let sync := verifyHeader payload header secret tolerance cp w in
  fst async = fst sync /\
  dateNow (snd async) = dateNow (snd sync) /\
  webhooksNodeCryptoProviderInstance (snd async) =
    webhooksNodeCryptoProviderInstance (snd sync) /\
  map callArguments (hmacCalls (snd async)) =
    map callArguments (hmacCalls (snd sync)).
Proof.
  intros Hsame. cbv zeta.
  destruct (parseEventDetails payload header EXPECTED_SCHEME w)
    as [[ev|e] w'] eqn:Hparse;
    (assert (w' = w)
      by (pose proof (parseEventDetails_world payload header
                        EXPECTED_SCHEME w) as Hw;
          now rewrite Hparse in Hw));
    subst w'.
  - rewrite (verifyHeaderAsync_accepted _ _ _ _ _ _ _ Hparse),
      (verifyHeader_accepted _ _ _ _ _ _ _ Hparse).
    unfold expectedSignatureOf. rewrite Hsame. cbn [fst snd].
    unfold worldAfterCall. cbn [dateNow webhooksNodeCryptoProviderInstance
                                  hmacCalls].
    rewrite !map_app. repeat split; reflexivity.
  - rewrite (verifyHeaderAsync_rejected _ _ _ _ _ _ _ Hparse),
      (verifyHeader_rejected _ _ _ _ _ _ _ Hparse).
    repeat split; reflexivity.
Qed.

(** C6.  The header [t=abc,v1=deadbeef] parses with the timestamp [NaN],
    which is not the sentinel [-1]: the header is accepted, the provider is
    asked for the HMAC of [NaN.] followed by the payload, and the outcome
    is that of the comparison of [deadbeef] with that HMAC, no tolerance
    check taking place.  The error about the header is not thrown. *)
Theorem unparsable_timestamp_reaches_hmac
  (payload secret : string) (tolerance : Js.number)
  (cp : option StripeCryptoProvider) (w : World) :
  parseHeader (Some "t=abc,v1=deadbeef") EXPECTED_SCHEME =
    Some {| signatures := [Some "deadbeef"]; timestamp := Js.NaN |} /\
  verifyHeader (PayloadString payload) (HeaderString "t=abc,v1=deadbeef")
    secret tolerance cp w =
  (if String.eqb
        (computeHMACSignature (resolveProvider cp w) ("NaN." ++ payload) secret)
        "deadbeef"
   then Return true
   else Throw (noMatchingSignature (Some "t=abc,v1=deadbeef") payload),
   worldAfterCall cp w (SyncCall ("NaN." ++ payload) secret)).
Proof.
  split; [reflexivity|].
  rewrite (verifyHeader_accepted _ _ _ _ _ _
             {| details := {| signatures := [Some "deadbeef"];
                              timestamp := Js.NaN |};
                decodedPayload := payload;
                decodedHeader := Some "t=abc,v1=deadbeef" |})
    by reflexivity.
  unfold expectedSignatureOf, signatureFound, toleranceCheck, timestampAge.
  cbn [details decodedPayload decodedHeader signatures timestamp filter
       secureCompare makeHMACContent Js.numberToString Js.sub].
  change ("NaN" ++ "." ++ payload) with ("NaN." ++ payload).
  rewrite secureCompareBytes_eqb. cbn [andb].
  destruct (String.eqb _ "deadbeef"); cbn [List.length Nat.eqb negb];
    [|reflexivity].
  destruct tolerance as [|t]; cbn [Js.gt]; now rewrite ?andb_false_r.
Qed.

Lemma constructEvent_unfold payload header secret tolerance cp w :
  constructEvent payload header secret tolerance cp w =
  match verifyHeader payload header secret (toleranceOrDefault tolerance) cp w
  with
  | (Return _, w') => (jsonOutcome payload, w')
  | (Throw e, w') => (Throw e, w')
  end.
Proof.
  unfold constructEvent, bind, jsonParse, jsonOutcome.
  destruct (verifyHeader _ _ _ _ _ _) as [[b|e] w']; [|reflexivity].
  destruct (JSON_parse (decodePayload payload)); reflexivity.
Qed.

Lemma constructEventAsync_unfold payload header secret tolerance cp w :
  constructEventAsync payload header secret tolerance cp w =
  match verifyHeaderAsync payload header secret (toleranceOrDefault tolerance)
          cp w
  with
  | (Return _, w') => (jsonOutcome payload, w')
  | (Throw e, w') => (Throw e, w')
  end.
Proof.
  unfold constructEventAsync, bind, jsonParse, jsonOutcome.
  destruct (verifyHeaderAsync _ _ _ _ _ _) as [[b|e] w']; [|reflexivity].
  destruct (JSON_parse (decodePayload payload)); reflexivity.
Qed.

(** C10, as the code has it.  [constructEvent] and [constructEventAsync]
    put 300 in the place of a tolerance that is [null], [undefined], [0] or
    [NaN], and hand every other tolerance on as it is.  So with a falsy
    tolerance a valid signature on a timestamp older than 300 seconds is
    refused; with a negative tolerance the wrappers accept it, the check
    being off as in a direct call. *)
Theorem wrappers_replace_falsy_tolerance
  (payload : WebhookPayload) (header : WebhookHeader) (secret : string)
  (tolerance : option Js.number) (cp : option StripeCryptoProvider)
  (w : World) (ev : WebhookParsedEvent) :
  parseEventDetails payload header EXPECTED_SCHEME w = (Return ev, w) ->
  In (Some (expectedSignatureOf ev secret cp w)) (signatures (details ev)) ->
  (forall data key,
      computeHMACSignatureAsync (resolveProvider cp w) data key =
      computeHMACSignature (resolveProvider cp w) data key) ->
  DEFAULT_TOLERANCE = Js.Int 300 /\
  (tolerance = None \/ tolerance = Some (Js.Int 0) \/ tolerance = Some Js.NaN ->
   toleranceOrDefault tolerance = DEFAULT_TOLERANCE /\
   (Js.gt (timestampAge w (details ev)) (Js.Int 300) = true ->
    fst (constructEvent payload header secret tolerance cp w) =
      Throw (timestampOutsideTolerance (decodedHeader ev) (decodedPayload ev))
    /\
    fst (constructEventAsync payload header secret tolerance cp w) =
      Throw (timestampOutsideTolerance (decodedHeader ev) (decodedPayload ev))))
  /\
  (forall t, tolerance = Some t -> Js.truthy t = true ->
             toleranceOrDefault tolerance = t) /\
  (forall z, tolerance = Some (Js.Int z) -> z < 0 ->
             fst (constructEvent payload header secret tolerance cp w) =
               jsonOutcome payload /\
             fst (constructEventAsync payload header secret tolerance cp w) =
               jsonOutcome payload).
Proof.
  intros Hparse Hin Hsame. apply signatureFound_In in Hin.
  assert (Hrun : forall tol,
             verifyHeader payload header secret tol cp w =
             (toleranceCheck (decodedHeader ev) (decodedPayload ev) tol w
                (details ev),
              worldAfterCall cp w
                (SyncCall (makeHMACContent (decodedPayload ev) (details ev))
                   secret))).
  { intros tol. rewrite (verifyHeader_accepted _ _ _ _ _ _ _ Hparse).
    now rewrite Hin. }
  assert (HrunA : forall tol,
             verifyHeaderAsync payload header secret tol cp w =
             (toleranceCheck (decodedHeader ev) (decodedPayload ev) tol w
                (details ev),
              worldAfterCall cp w
                (AsyncCall (makeHMACContent (decodedPayload ev) (details ev))
                   secret))).
  { intros tol. rewrite (verifyHeaderAsync_accepted _ _ _ _ _ _ _ Hparse).
    rewrite Hsame. fold (expectedSignatureOf ev secret cp w).
    now rewrite Hin. }
  split; [reflexivity|]. split; [|split].
  - intros Hfalsy.
    assert (Hdef : toleranceOrDefault tolerance = DEFAULT_TOLERANCE)
      by (destruct Hfalsy as [-> | [-> | ->]]; reflexivity).
    split; [exact Hdef|]. intros Hold.
    rewrite constructEvent_unfold, constructEventAsync_unfold, Hdef,
      Hrun, HrunA.
    unfold toleranceCheck, DEFAULT_TOLERANCE. rewrite Hold.
    split; reflexivity.
  - intros t -> Ht. unfold toleranceOrDefault. now rewrite Ht.
  - intros z -> Hz.
    rewrite constructEvent_unfold, constructEventAsync_unfold, Hrun, HrunA.
    assert (Htol : toleranceOrDefault (Some (Js.Int z)) = Js.Int z).
    { unfold toleranceOrDefault, Js.truthy.
      destruct (z =? 0) eqn:E; [apply Z.eqb_eq in E; lia|reflexivity]. }
    rewrite Htol. unfold toleranceCheck.
    assert (Hoff : Js.gt (Js.Int z) (Js.Int 0) = false)
      by (apply Z.ltb_ge; lia).
    rewrite Hoff. split; reflexivity.
Qed.

Lemma parseHeader_generated z sig :
  freeOf "," sig = true -> freeOf "=" sig = true ->
  parseHeader
    (Some (Js.join "," ["t=" ++ Js.numberToString (Js.Int z);
                        EXPECTED_SCHEME ++ "=" ++ sig]))
    EXPECTED_SCHEME =
  Some {| signatures := [Some sig]; timestamp := Js.Int z |}.
Proof.
  intros Hcomma Heq.
  assert (Hnum : forall c, Js.digitValue c = None -> c <> "-"%char ->
                           freeOf c (Js.numberToString (Js.Int z)) = true)
    by (intros c; apply numberToString_free).
  unfold parseHeader. f_equal.
  change (Js.join "," ["t=" ++ Js.numberToString (Js.Int z);
                       EXPECTED_SCHEME ++ "=" ++ sig])
    with (("t=" ++ Js.numberToString (Js.Int z))
            ++ String "," ("v1=" ++ sig)).
  rewrite split_app.
  2:{ rewrite freeOf_app, Hnum by (reflexivity || discriminate). reflexivity. }
  rewrite split_free.
  2:{ rewrite freeOf_app, Hcomma. reflexivity. }
  cbn [fold_left]. unfold parseHeaderStep.
  change ("t=" ++ Js.numberToString (Js.Int z))
    with ("t" ++ "=" ++ Js.numberToString (Js.Int z)).
  change ("v1=" ++ sig) with ("v1" ++ "=" ++ sig).
  rewrite !split_key_value
    by first [assumption | reflexivity
             | apply Hnum; [reflexivity|discriminate]].
  cbn [nth nth_error Js.toStringValue]. rewrite parseInt_numberToString.
  reflexivity.
Qed.

(** C1, as the code has it.  A header made by [generateTestHeaderString]
    from a timestamp, a payload and a secret is verified by [verifyHeader]
    with the same payload, secret and provider and the tolerance [0],
    provided the timestamp written into the header is not [-1] and the
    signature of the provider holds neither [,] nor [=].  The timestamp is
    taken below 10^21 in magnitude, the range in which the language prints
    an integer in plain decimal, as [Js.numberToString] does. *)
Theorem generated_header_verifies
  (timestamp0 : option Js.number) (payload secret : string)
  (p : StripeCryptoProvider) (w1 w2 : World) (z : Z) :
  timestampOrNow timestamp0 (dateNow w1 / 1000) = Js.Int z ->
  Z.abs z < 10 ^ 21 ->
  z <> -1 ->
  freeOf ","
    (computeHMACSignature p
       (Js.numberToString (Js.Int z) ++ "." ++ payload) secret) = true ->
  freeOf "="
    (computeHMACSignature p
       (Js.numberToString (Js.Int z) ++ "." ++ payload) secret) = true ->
  exists header w1',
    generateTestHeaderString
      (Some {| opt_timestamp := timestamp0;
               opt_payload := payload;
               opt_secret := secret;
               opt_scheme := None;
               opt_signature := None;
               opt_cryptoProvider := Some p |}) w1 = (Return header, w1') /\
    fst (verifyHeader (PayloadString payload) (HeaderString header) secret
           (Js.Int 0) (Some p) w2) = Return true.
Proof.
  intros Hts _ Hz Hcomma Heq.
  set (sig := computeHMACSignature p
                (Js.numberToString (Js.Int z) ++ "." ++ payload) secret) in *.
  exists (Js.join "," ["t=" ++ Js.numberToString (Js.Int z);
                       EXPECTED_SCHEME ++ "=" ++ sig]).
  eexists. split.
  - unfold generateTestHeaderString, bind, unixNow.
    cbn [opt_timestamp opt_payload opt_secret opt_scheme opt_signature
         opt_cryptoProvider stringOr providerOrDefault ret].
    rewrite Hts. unfold callHMACSignature. reflexivity.
  - rewrite (verifyHeader_accepted _ _ _ _ _ _
               {| details := {| signatures := [Some sig];
                                timestamp := Js.Int z |};
                  decodedPayload := payload;
                  decodedHeader :=
                    Some (Js.join ","
                            ["t=" ++ Js.numberToString (Js.Int z);
                             EXPECTED_SCHEME ++ "=" ++ sig]) |}).
    + cbn [fst details decodedPayload decodedHeader].
      assert (Hfound :
                signatureFound
                  {| signatures := [Some sig]; timestamp := Js.Int z |}
                  (expectedSignatureOf
                     {| details := {| signatures := [Some sig];
                                      timestamp := Js.Int z |};
                        decodedPayload := payload;
                        decodedHeader :=
                          Some (Js.join ","
                                  ["t=" ++ Js.numberToString (Js.Int z);
                                   EXPECTED_SCHEME ++ "=" ++ sig]) |}
                     secret (Some p) w2) = true).
      { apply signatureFound_In. left. reflexivity. }
      rewrite Hfound. reflexivity.
    + rewrite parseEventDetails_cases.
      cbn [isArray decodeHeader decodePayload].
      rewrite (parseHeader_generated z sig Hcomma Heq).
      cbn [timestamp signatures List.length Nat.eqb].
      assert (Hne : Js.strictEq (Js.Int z) (Js.Int (-1)) = false)
        by (apply strictEq_Int_false; congruence).
      rewrite Hne. reflexivity.
Qed.

End VerifierFacts.

(** ** The theorems at work on concrete requests

    The clock of [world0] reads 1614556900 seconds; the provider
    [toyProvider] signs [data] under [secret] as [secret/data]. *)

Lemma parseHeader_scans_tokens_witness :
  (exists d,
      parseHeader (Some "t=1,t=2,v0=x,v1=a,v1=b") "v1" = Some d /\
      timestamp d = Js.Int 2 /\
      signatures d = [Some "a"; Some "b"] /\
      fold_left (parseHeaderStep "v1") ["t=1"; "t=2"; "v1=a"; "v1=b"]
        {| signatures := []; timestamp := Js.Int (-1) |} = d) /\
  (exists d,
      parseHeader (Some "v1=deadbeef") "v1" = Some d /\
      timestamp d = Js.Int (-1)).
Proof.
  split.
  - destruct (parseHeader_scans_tokens "t=1,t=2,v0=x,v1=a,v1=b" "v1")
      as (d & Hd & Hsigs & Hlast & _ & Hother & _).
    exists d. split; [exact Hd|]. split; [|split].
    + apply (Hlast ["t=1"] "t=2" ["v0=x"; "v1=a"; "v1=b"]);
        [reflexivity|reflexivity|].
      intros x [<-|[<-|[<-|[]]]]; discriminate.
    + exact Hsigs.
    + apply (Hother ["t=1"; "t=2"] "v0=x" ["v1=a"; "v1=b"]);
        [reflexivity|discriminate|discriminate].
  - destruct (parseHeader_scans_tokens "v1=deadbeef" "v1")
      as (d & Hd & _ & _ & Hnone & _).
    exists d. split; [exact Hd|]. apply Hnone.
    intros x [<-|[]]. discriminate.
Defined.

Lemma structural_failures_precede_hmac_witness :
  @verifyHeader toyHost (PayloadString "{}") (HeaderString "v1=deadbeef")
    "whsec" (Js.Int 300) (Some toyProvider) world0 =
  (Throw (unableToExtract (Some "v1=deadbeef") "{}"), world0) /\
  @verifyHeader toyHost (PayloadString "{}")
    (HeaderString "t=1614556800,v0=deadbeef")
    "whsec" (Js.Int 300) (Some toyProvider) world0 =
  (Throw (noSignaturesWithScheme (Some "t=1614556800,v0=deadbeef") "{}"),
   world0).
Proof.
  split.
  - apply (@structural_failures_precede_hmac toyHost (PayloadString "{}")
             (HeaderString "v1=deadbeef") "whsec" (Js.Int 300)
             (Some toyProvider) world0
             {| signatures := [Some "deadbeef"]; timestamp := Js.Int (-1) |});
      reflexivity.
  - apply (@structural_failures_precede_hmac toyHost (PayloadString "{}")
             (HeaderString "t=1614556800,v0=deadbeef") "whsec" (Js.Int 300)
             (Some toyProvider) world0
             {| signatures := []; timestamp := Js.Int 1614556800 |});
      try reflexivity.
    discriminate.
Defined.

Lemma timestamp_error_iff_witness :
  (* age 301, tolerance 300 *)
  thrownMessage
    (fst (@verifyHeader toyHost (PayloadString "{}")
            (HeaderString "t=1614556599,v1=whsec/1614556599.{}")
            "whsec" (Js.Int 300) (Some toyProvider) world0)) =
    Some "Timestamp outside the tolerance zone" /\
  (* age 300, tolerance 300 *)
  fst (@verifyHeader toyHost (PayloadString "{}")
         (HeaderString "t=1614556600,v1=whsec/1614556600.{}")
         "whsec" (Js.Int 300) (Some toyProvider) world0) = Return true /\
  (* a timestamp of 1970, tolerance 0 *)
  fst (@verifyHeader toyHost (PayloadString "{}")
         (HeaderString "t=1,v1=whsec/1.{}")
         "whsec" (Js.Int 0) (Some toyProvider) world0) = Return true /\
  (* a timestamp of 1970 and a wrong signature, tolerance 300 *)
  fst (@verifyHeader toyHost (PayloadString "{}")
         (HeaderString "t=1,v1=deadbeef")
         "whsec" (Js.Int 300) (Some toyProvider) world0) =
    Throw (noMatchingSignature (Some "t=1,v1=deadbeef") "{}").
Proof.
  split; [|split; [|split]].
  - apply (proj1 (@timestamp_error_iff toyHost (PayloadString "{}")
                    (HeaderString "t=1614556599,v1=whsec/1614556599.{}")
                    "whsec" (Js.Int 300) (Some toyProvider) world0)).
    eexists. split; [reflexivity|]. split; [simpl; auto|].
    split; reflexivity.
  - eapply (proj1 (proj2 (@timestamp_error_iff toyHost (PayloadString "{}")
                            (HeaderString "t=1614556600,v1=whsec/1614556600.{}")
                            "whsec" (Js.Int 300) (Some toyProvider) world0)));
      [reflexivity|simpl; auto|reflexivity].
  - eapply (proj1 (proj2 (proj2
                (@timestamp_error_iff toyHost (PayloadString "{}")
                   (HeaderString "t=1,v1=whsec/1.{}")
                   "whsec" (Js.Int 0) (Some toyProvider) world0))));
      [reflexivity|simpl; auto|reflexivity].
  - apply (proj2 (proj2 (proj2
                (@timestamp_error_iff toyHost (PayloadString "{}")
                   (HeaderString "t=1,v1=deadbeef")
                   "whsec" (Js.Int 300) (Some toyProvider) world0)))
             {| details := {| signatures := [Some "deadbeef"];
                              timestamp := Js.Int 1 |};
                decodedPayload := "{}";
                decodedHeader := Some "t=1,v1=deadbeef" |});
      [reflexivity|].
    simpl. intros [H|[]]. discriminate.
Defined.

Lemma any_matching_candidate_suffices_witness :
  fst (@verifyHeader toyHost (PayloadString "{}")
         (HeaderString "t=1614556800,v1=0bad,v1=whsec/1614556800.{},v1=0dd")
         "whsec" (Js.Int 300) (Some toyProvider) world0) = Return true.
Proof.
  eapply (@any_matching_candidate_suffices toyHost (PayloadString "{}")
            (HeaderString "t=1614556800,v1=0bad,v1=whsec/1614556800.{},v1=0dd")
            "whsec" (Js.Int 300) (Some toyProvider) world0 _
            [Some "0bad"] [Some "0dd"]);
    reflexivity.
Defined.

Lemma verifyHeaderAsync_agrees_witness :
  fst (@verifyHeaderAsync toyHost (PayloadString "{}")
         (HeaderString "t=1614556800,v1=whsec/1614556800.{}")
         "whsec" (Js.Int 300) None world0) =
  fst (@verifyHeader toyHost (PayloadString "{}")
         (HeaderString "t=1614556800,v1=whsec/1614556800.{}")
         "whsec" (Js.Int 300) None world0).
Proof.
  apply (@verifyHeaderAsync_agrees toyHost (PayloadString "{}")
           (HeaderString "t=1614556800,v1=whsec/1614556800.{}")
           "whsec" (Js.Int 300) None world0).
  intros data key. reflexivity.
Defined.

(** C10, as the claim has it, fails in its last part: the check can be
    switched off through the wrapper.  A signed timestamp of 1970 is
    refused with the tolerance [0], which stands for 300 seconds, and
    accepted with the tolerance [-1]. *)
Lemma wrapper_accepts_old_timestamp_with_negative_tolerance :
  fst (@constructEvent toyHost (PayloadString "{}")
         (HeaderString "t=1,v1=whsec/1.{}") "whsec"
         (Some (Js.Int 0)) (Some toyProvider) world0) =
    Throw (timestampOutsideTolerance (Some "t=1,v1=whsec/1.{}") "{}") /\
  fst (@constructEvent toyHost (PayloadString "{}")
         (HeaderString "t=1,v1=whsec/1.{}") "whsec"
         (Some (Js.Int (-1))) (Some toyProvider) world0) = Return "{}" /\
  fst (@constructEventAsync toyHost (PayloadString "{}")
         (HeaderString "t=1,v1=whsec/1.{}") "whsec"
         (Some (Js.Int (-1))) (Some toyProvider) world0) = Return "{}".
Proof. repeat split; reflexivity. Qed.

Lemma wrappers_replace_falsy_tolerance_witness :
  fst (@constructEvent toyHost (PayloadString "{}")
         (HeaderString "t=1,v1=whsec/1.{}") "whsec"
         None (Some toyProvider) world0) =
    Throw (timestampOutsideTolerance (Some "t=1,v1=whsec/1.{}") "{}") /\
  fst (@constructEventAsync toyHost (PayloadString "{}")
         (HeaderString "t=1,v1=whsec/1.{}") "whsec"
         (Some (Js.Int (-5))) (Some toyProvider) world0) = Return "{}".
Proof.
  pose (ev := {| details := {| signatures := [Some "whsec/1.{}"];
                               timestamp := Js.Int 1 |};
                 decodedPayload := "{}";
                 decodedHeader := Some "t=1,v1=whsec/1.{}" |}).
  assert (Hparse : @parseEventDetails toyHost (PayloadString "{}")
                     (HeaderString "t=1,v1=whsec/1.{}") EXPECTED_SCHEME world0
                   = (Return ev, world0)) by reflexivity.
  assert (Hin : In (Some (@expectedSignatureOf toyHost ev "whsec"
                            (Some toyProvider) world0))
                  (signatures (details ev))) by (left; reflexivity).
  assert (Hsame : forall data key,
             computeHMACSignatureAsync
               (@resolveProvider toyHost (Some toyProvider) world0) data key =
             computeHMACSignature
               (@resolveProvider toyHost (Some toyProvider) world0) data key)
    by (intros data key; reflexivity).
  split.
  - destruct (@wrappers_replace_falsy_tolerance toyHost (PayloadString "{}")
                (HeaderString "t=1,v1=whsec/1.{}") "whsec" None
                (Some toyProvider) world0 ev Hparse Hin Hsame)
      as (_ & Hfalsy & _ & _).
    destruct (Hfalsy (or_introl eq_refl)) as [_ Hold].
    apply Hold. reflexivity.
  - destruct (@wrappers_replace_falsy_tolerance toyHost (PayloadString "{}")
                (HeaderString "t=1,v1=whsec/1.{}") "whsec"
                (Some (Js.Int (-5))) (Some toyProvider) world0 ev Hparse Hin
                Hsame)
      as (_ & _ & _ & Hneg).
    apply (Hneg (-5)); [reflexivity|lia].
Defined.

(** C1, as the claim has it, fails: the timestamp [-1] is the mark of a
    header without timestamp, so the header generated for it is refused. *)
Lemma generated_header_with_sentinel_timestamp_is_refused :
  fst (@generateTestHeaderString toyHost
         (Some {| opt_timestamp := Some (Js.Int (-1));
                  opt_payload := "{}";
                  opt_secret := "whsec";
                  opt_scheme := None;
                  opt_signature := None;
                  opt_cryptoProvider := Some toyProvider |}) world0) =
    Return "t=-1,v1=whsec/-1.{}" /\
  fst (@verifyHeader toyHost (PayloadString "{}")
         (HeaderString "t=-1,v1=whsec/-1.{}") "whsec" (Js.Int 0)
         (Some toyProvider) world0) =
    Throw (unableToExtract (Some "t=-1,v1=whsec/-1.{}") "{}") /\
  fst (@verifyHeader toyHost (PayloadString "{}")
         (HeaderString "t=-1,v1=whsec/-1.{}") "whsec" (Js.Int 0)
         (Some toyProvider) world0) <> Return true.
Proof. repeat split; try reflexivity. discriminate. Qed.

(** The round trip also fails for a provider whose signatures hold [=]:
    the parser keeps only the part of the signature before it. *)
Example generated_header_with_padded_signature_is_refused :
  fst (@generateTestHeaderString toyHost
         (Some {| opt_timestamp := Some (Js.Int 1614556800);
                  opt_payload := "{}";
                  opt_secret := "whsec";
                  opt_scheme := None;
                  opt_signature := None;
                  opt_cryptoProvider := Some paddedProvider |}) world0) =
    Return "t=1614556800,v1=whsec/1614556800.{}==" /\
  fst (@verifyHeader toyHost (PayloadString "{}")
         (HeaderString "t=1614556800,v1=whsec/1614556800.{}==") "whsec"
         (Js.Int 0) (Some paddedProvider) world0) =
    Throw (noMatchingSignature
             (Some "t=1614556800,v1=whsec/1614556800.{}==") "{}").
Proof. split; reflexivity. Qed.

Lemma generated_header_verifies_witness :
  exists header w1',
    @generateTestHeaderString toyHost
      (Some {| opt_timestamp := Some (Js.Int 1614556800);
               opt_payload := "{}";
               opt_secret := "whsec";
               opt_scheme := None;
               opt_signature := None;
               opt_cryptoProvider := Some toyProvider |}) world0 =
    (Return header, w1') /\
    fst (@verifyHeader toyHost (PayloadString "{}") (HeaderString header)
           "whsec" (Js.Int 0) (Some toyProvider) world0) = Return true.
Proof.
  apply (@generated_header_verifies toyHost (Some (Js.Int 1614556800))
           "{}" "whsec" toyProvider world0 world0 1614556800);
    [reflexivity|reflexivity|lia|reflexivity|reflexivity].
Defined.

(** C6 on a request: with a provider that signs [NaN.{}] the way the
    candidate reads, the header with the unparsable timestamp is verified,
    under any tolerance. *)
Example unparsable_timestamp_can_verify :
  @verifyHeader toyHost (PayloadString "{}")
    (HeaderString "t=abc,v1=deadbeef") "whsec" (Js.Int 300)
    (Some toyProvider) world0 =
  (Throw (noMatchingSignature (Some "t=abc,v1=deadbeef") "{}"),
   {| dateNow := dateNow world0;
      webhooksNodeCryptoProviderInstance := None;
      hmacCalls := [SyncCall "NaN.{}" "whsec"] |}) /\
  fst (@verifyHeader toyHost (PayloadString "{}")
         (HeaderString "t=abc,v1=whsec/NaN.{}") "whsec" (Js.Int 300)
         (Some toyProvider) world0) = Return true.
Proof. split; reflexivity. Qed.

(** ** More of the verifier: refusals, effects, monotonicity *)

Section VerifierBehaviour.

Context {host : Host}.

Lemma parseEventDetails_any_world payload header scheme w w' :
  fst (parseEventDetails payload header scheme w') =
  fst (parseEventDetails payload header scheme w).
Proof. now rewrite !parseEventDetails_cases. Qed.

Lemma parseEventDetails_pair payload header scheme w :
  parseEventDetails payload header scheme w =
  (fst (parseEventDetails payload header scheme w), w).
Proof. now rewrite parseEventDetails_cases. Qed.

(** X1.  An array handed over as the header is refused at once, by both
    verifiers and both wrappers, with a plain error and not a verification
    error; nothing is parsed, no provider is resolved or called, and
    [JSON.parse] is not reached. *)
Theorem array_header_is_refused_first
  (payload : WebhookPayload) (items : list string) (secret : string)
  (tolerance : Js.number) (wrapperTolerance : option Js.number)
  (cp : option StripeCryptoProvider) (w : World) :
  verifyHeader payload (HeaderArray items) secret tolerance cp w =
    (Throw arrayHeader, w) /\
  verifyHeaderAsync payload (HeaderArray items) secret tolerance cp w =
    (Throw arrayHeader, w) /\
  constructEvent payload (HeaderArray items) secret wrapperTolerance cp w =
    (Throw arrayHeader, w) /\
  constructEventAsync payload (HeaderArray items) secret wrapperTolerance cp w =
    (Throw arrayHeader, w) /\
  errorClass arrayHeader = PlainError.
Proof. repeat split; reflexivity. Qed.

(** X2.  A header that is missing, and a string header none of whose
    tokens has the key [t] (the empty header, a header of signatures
    only), are refused with the error "Unable to extract timestamp and
    signatures from header", whatever signatures they carry, and the world
    is left as it was. *)
Theorem header_without_timestamp_is_malformed
  (payload : WebhookPayload) (h : string) (secret : string)
  (tolerance : Js.number) (cp : option StripeCryptoProvider) (w : World) :
  (forall x, In x (Js.split "," h) -> tokenKey x <> "t") ->
  verifyHeader payload (HeaderString h) secret tolerance cp w =
    (Throw (unableToExtract (Some h) (decodePayload payload)), w) /\
  verifyHeader payload HeaderUndefined secret tolerance cp w =
    (Throw (unableToExtract None (decodePayload payload)), w).
Proof.
  intros Hnone. split; [|reflexivity].
  apply verifyHeader_rejected. rewrite parseEventDetails_cases.
  cbn [isArray decodeHeader]. rewrite parseHeader_spec.
  unfold parseHeaderSpec. cbn [timestamp signatures].
  now rewrite (lastTimestamp_none _ _ Hnone).
Qed.

(** X3.  [verifyHeader] returns [true] exactly when the header is
    accepted, one of its candidates is the computed HMAC, and the
    timestamp is not outside a tolerance above zero. *)
Theorem verifyHeader_returns_true_iff
  (payload : WebhookPayload) (header : WebhookHeader) (secret : string)
  (tolerance : Js.number) (cp : option StripeCryptoProvider) (w : World) :
  fst (verifyHeader payload header secret tolerance cp w) = Return true <->
  exists ev,
    parseEventDetails payload header EXPECTED_SCHEME w = (Return ev, w) /\
    In (Some (expectedSignatureOf ev secret cp w)) (signatures (details ev)) /\
    Js.gt tolerance (Js.Int 0)
    && Js.gt (timestampAge w (details ev)) tolerance = false.
Proof.
  rewrite (parseEventDetails_pair payload header EXPECTED_SCHEME w).
  destruct (fst (parseEventDetails payload header EXPECTED_SCHEME w))
    as [ev|e] eqn:Hfst.
  - assert (Hparse : parseEventDetails payload header EXPECTED_SCHEME w
                     = (Return ev, w))
      by (rewrite parseEventDetails_pair, Hfst; reflexivity).
    rewrite (verifyHeader_accepted _ _ _ _ _ _ _ Hparse). cbn [fst].
    unfold toleranceCheck.
    destruct (signatureFound (details ev) (expectedSignatureOf ev secret cp w))
      eqn:Hfound.
    + apply signatureFound_In in Hfound.
      destruct (Js.gt tolerance (Js.Int 0)
                && Js.gt (timestampAge w (details ev)) tolerance) eqn:Hexp.
      * split; [discriminate|].
        intros (ev' & [= <-] & _ & Hno). congruence.
      * split; [intros _; exists ev; auto|reflexivity].
    + split; [discriminate|].
      intros (ev' & [= <-] & Hin & _).
      apply signatureFound_In in Hin. congruence.
  - assert (Hparse : parseEventDetails payload header EXPECTED_SCHEME w
                     = (Throw e, w))
      by (rewrite parseEventDetails_pair, Hfst; reflexivity).
    rewrite (verifyHeader_rejected _ _ _ _ _ _ _ Hparse). cbn [fst].
    split; [discriminate|]. intros (ev & Hev & _). discriminate.
Qed.


(** X5.  What [verifyHeader] does to the world.  The clock is not
    touched.  The provider is asked for one HMAC, of the parsed timestamp,
    a dot and the decoded payload, under the secret of the caller, when
    the header is accepted, and for none when it is refused; the
    asynchronous method is never used.  The module variable changes in
    one case only: an accepted header, no provider from the caller and
    none created so far; it then receives the default provider. *)
Theorem verifyHeader_effects
  (payload : WebhookPayload) (header : WebhookHeader) (secret : string)
  (tolerance : Js.number) (cp : option StripeCryptoProvider) (w : World) :
  let w' := snd (verifyHeader payload header secret tolerance cp w) in
  dateNow w' = dateNow w /\
  hmacCalls w' =
    (hmacCalls w ++
     match fst (parseEventDetails payload header EXPECTED_SCHEME w) with
     | Return ev =>
         [SyncCall (Js.numberToString (timestamp (details ev)) ++ "."
                    ++ decodePayload payload) secret]
     | Throw _ => []
     end)%list /\
  webhooksNodeCryptoProviderInstance w' =
    match cp, webhooksNodeCryptoProviderInstance w,
          fst (parseEventDetails payload header EXPECTED_SCHEME w) with
    | None, None, Return _ => Some NodeCryptoProvider
    | _, _, _ => webhooksNodeCryptoProviderInstance w
    end.
Proof.
  cbv zeta.
  destruct (fst (parseEventDetails payload header EXPECTED_SCHEME w))
    as [ev|e] eqn:Hfst.
  - assert (Hparse : parseEventDetails payload header EXPECTED_SCHEME w
                     = (Return ev, w))
      by (rewrite parseEventDetails_pair, Hfst; reflexivity).
    destruct (parseEventDetails_accepted _ _ _ _ _ _ Hparse)
      as (_ & _ & _ & _ & _ & Hp & _).
    rewrite (verifyHeader_accepted _ _ _ _ _ _ _ Hparse). cbn [snd].
    unfold worldAfterCall, makeHMACContent.
    cbn [dateNow hmacCalls webhooksNodeCryptoProviderInstance].
    rewrite Hp. split; [reflexivity|]. split; [reflexivity|].
    destruct cp as [p|]; [reflexivity|].
    unfold resolveProvider.
    destruct (webhooksNodeCryptoProviderInstance w); reflexivity.
  - assert (Hparse : parseEventDetails payload header EXPECTED_SCHEME w
                     = (Throw e, w))
      by (rewrite parseEventDetails_pair, Hfst; reflexivity).
    rewrite (verifyHeader_rejected _ _ _ _ _ _ _ Hparse). cbn [snd].
    rewrite app_nil_r. repeat split; try reflexivity.
    destruct cp; [reflexivity|].
    destruct (webhooksNodeCryptoProviderInstance w); reflexivity.
Qed.

Lemma expectedSignatureOf_same_instance ev secret cp w w' :
  webhooksNodeCryptoProviderInstance w' = webhooksNodeCryptoProviderInstance w ->
  expectedSignatureOf ev secret cp w' = expectedSignatureOf ev secret cp w.
Proof.
  intros Hinst. unfold expectedSignatureOf, resolveProvider.
  now rewrite Hinst.
Qed.

Lemma verifyHeader_true_inv payload header secret tolerance cp w :
  fst (verifyHeader payload header secret tolerance cp w) = Return true ->
  exists ev,
    parseEventDetails payload header EXPECTED_SCHEME w = (Return ev, w) /\
    signatureFound (details ev) (expectedSignatureOf ev secret cp w) = true /\
    Js.gt tolerance (Js.Int 0)
    && Js.gt (timestampAge w (details ev)) tolerance = false.
Proof.
  destruct (fst (parseEventDetails payload header EXPECTED_SCHEME w))
    as [ev|e] eqn:Hfst.
  - assert (Hparse : parseEventDetails payload header EXPECTED_SCHEME w
                     = (Return ev, w))
      by (rewrite parseEventDetails_pair, Hfst; reflexivity).
    rewrite (verifyHeader_accepted _ _ _ _ _ _ _ Hparse). cbn [fst].
    unfold toleranceCheck.
    destruct (signatureFound _ _) eqn:Hfound; [|discriminate].
    destruct (_ && _) eqn:Hexp; [discriminate|].
    intros _. exists ev. auto.
  - assert (Hparse : parseEventDetails payload header EXPECTED_SCHEME w
                     = (Throw e, w))
      by (rewrite parseEventDetails_pair, Hfst; reflexivity).
    rewrite (verifyHeader_rejected _ _ _ _ _ _ _ Hparse). discriminate.
Qed.

(** X6.  Acceptance is monotone.  A header verified under a tolerance
    above zero is verified under every larger tolerance, and at every
    earlier reading of the clock. *)
Theorem wider_tolerance_and_earlier_clock_keep_success
  (payload : WebhookPayload) (header : WebhookHeader) (secret : string)
  (cp : option StripeCryptoProvider) (t1 t2 : Z) (w w' : World) :
  fst (verifyHeader payload header secret (Js.Int t1) cp w) = Return true ->
  0 < t1 <= t2 ->
  dateNow w' <= dateNow w ->
  webhooksNodeCryptoProviderInstance w' = webhooksNodeCryptoProviderInstance w ->
  fst (verifyHeader payload header secret (Js.Int t2) cp w') = Return true.
Proof.
  intros Hok Ht Hclock Hinst.
  apply verifyHeader_true_inv in Hok as (ev & Hparse & Hfound & Hexp).
  assert (Hparse' : parseEventDetails payload header EXPECTED_SCHEME w'
                    = (Return ev, w')).
  { rewrite parseEventDetails_pair.
    rewrite (parseEventDetails_any_world _ _ _ w w'), Hparse. reflexivity. }
  rewrite (verifyHeader_accepted _ _ _ _ _ _ _ Hparse'). cbn [fst].
  rewrite (expectedSignatureOf_same_instance _ _ _ _ _ Hinst), Hfound.
  unfold toleranceCheck, timestampAge in *.
  assert (Hdiv : dateNow w' / 1000 <= dateNow w / 1000)
    by (apply Z.div_le_mono; lia).
  destruct (timestamp (details ev)) as [|ts]; cbn [Js.sub Js.gt] in *.
  - now rewrite andb_false_r.
  - assert (E1 : (0 <? t1) = true) by (apply Z.ltb_lt; lia).
    rewrite E1 in Hexp. cbn [andb] in Hexp. apply Z.ltb_ge in Hexp.
    assert (E2 : (t2 <? dateNow w' / 1000 - ts) = false)
      by (apply Z.ltb_ge; lia).
    now rewrite E2, andb_false_r.
Qed.

(** X7.  A timestamp that is not in the past is never refused on account
    of time: with a matching signature the header is verified under every
    tolerance. *)
Theorem future_timestamp_never_expires
  (payload : WebhookPayload) (header : WebhookHeader) (secret : string)
  (tolerance : Js.number) (cp : option StripeCryptoProvider) (w : World)
  (ev : WebhookParsedEvent) (ts : Z) :
  parseEventDetails payload header EXPECTED_SCHEME w = (Return ev, w) ->
  In (Some (expectedSignatureOf ev secret cp w)) (signatures (details ev)) ->
  timestamp (details ev) = Js.Int ts ->
  dateNow w / 1000 <= ts ->
  fst (verifyHeader payload header secret tolerance cp w) = Return true.
Proof.
  intros Hparse Hin Hts Hfuture.
  rewrite (verifyHeader_accepted _ _ _ _ _ _ _ Hparse). cbn [fst].
  apply signatureFound_In in Hin. rewrite Hin.
  unfold toleranceCheck, timestampAge. rewrite Hts.
  destruct tolerance as [|t]; cbn [Js.sub Js.gt]; [reflexivity|].
  destruct (0 <? t) eqn:E0; [|reflexivity].
  apply Z.ltb_lt in E0.
  assert (E : (t <? dateNow w / 1000 - ts) = false) by (apply Z.ltb_ge; lia).
  now rewrite E.
Qed.

Lemma verifyHeader_returns_only_true payload header secret tolerance cp w b :
  fst (verifyHeader payload header secret tolerance cp w) = Return b ->
  b = true.
Proof.
  destruct (fst (parseEventDetails payload header EXPECTED_SCHEME w))
    as [ev|e] eqn:Hfst.
  - assert (Hparse : parseEventDetails payload header EXPECTED_SCHEME w
                     = (Return ev, w))
      by (rewrite parseEventDetails_pair, Hfst; reflexivity).
    rewrite (verifyHeader_accepted _ _ _ _ _ _ _ Hparse). cbn [fst].
    unfold toleranceCheck.
    destruct (signatureFound _ _); [|discriminate].
    destruct (_ && _); [discriminate|]. now intros [= <-].
  - assert (Hparse : parseEventDetails payload header EXPECTED_SCHEME w
                     = (Throw e, w))
      by (rewrite parseEventDetails_pair, Hfst; reflexivity).
    rewrite (verifyHeader_rejected _ _ _ _ _ _ _ Hparse). discriminate.
Qed.

(** X8.  [constructEvent] hands out an event only after verification: it
    returns a value exactly when [verifyHeader], under the tolerance or
    its default, returns [true] and [JSON.parse] accepts the payload, and
    the value is the one [JSON.parse] gives. *)
Theorem constructEvent_returns_iff
  (payload : WebhookPayload) (header : WebhookHeader) (secret : string)
  (tolerance : option Js.number) (cp : option StripeCryptoProvider)
  (w : World) (j : Json) :
  fst (constructEvent payload header secret tolerance cp w) = Return j <->
  fst (verifyHeader payload header secret (toleranceOrDefault tolerance) cp w)
    = Return true /\
  JSON_parse (decodePayload payload) = inr j.
Proof.
  rewrite constructEvent_unfold.
  pose proof (verifyHeader_returns_only_true payload header secret
                (toleranceOrDefault tolerance) cp w) as Hout.
  destruct (verifyHeader payload header secret (toleranceOrDefault tolerance)
              cp w) as [[b|e] w'] eqn:Hrun; cbn [fst] in *.
  - rewrite (Hout b eq_refl). unfold jsonOutcome.
    destruct (JSON_parse (decodePayload payload)) as [e|j'].
    + split; [discriminate|]. intros [_ H]. discriminate.
    + split; [intros [= ->]; auto|intros [_ [= ->]]; reflexivity].
  - split; [discriminate|]. intros [H _]. discriminate.
Qed.

End VerifierBehaviour.

(** ** The wrappers, the default provider and the generator *)

Section GeneratorBehaviour.

Context {host : Host}.

Lemma verifyHeaderAsync_as_sync payload header secret tolerance cp w :
  (forall data key,
      computeHMACSignatureAsync (resolveProvider cp w) data key =
      computeHMACSignature (resolveProvider cp w) data key) ->
  fst (verifyHeaderAsync payload header secret tolerance cp w) =
  fst (verifyHeader payload header secret tolerance cp w) /\
  map callArguments
    (hmacCalls (snd (verifyHeaderAsync payload header secret tolerance cp w))) =
  map callArguments
    (hmacCalls (snd (verifyHeader payload header secret tolerance cp w))).
Proof.
  intros Hsame.
  destruct (fst (parseEventDetails payload header EXPECTED_SCHEME w))
    as [ev|e] eqn:Hfst.
  - assert (Hparse : parseEventDetails payload header EXPECTED_SCHEME w
                     = (Return ev, w))
      by (rewrite parseEventDetails_pair, Hfst; reflexivity).
    rewrite (verifyHeaderAsync_accepted _ _ _ _ _ _ _ Hparse),
      (verifyHeader_accepted _ _ _ _ _ _ _ Hparse).
    unfold expectedSignatureOf, worldAfterCall. rewrite Hsame.
    cbn [fst snd hmacCalls]. rewrite !map_app. split; reflexivity.
  - assert (Hparse : parseEventDetails payload header EXPECTED_SCHEME w
                     = (Throw e, w))
      by (rewrite parseEventDetails_pair, Hfst; reflexivity).
    rewrite (verifyHeaderAsync_rejected _ _ _ _ _ _ _ Hparse),
      (verifyHeader_rejected _ _ _ _ _ _ _ Hparse).
    split; reflexivity.
Qed.

(** X9.  With a provider whose two methods compute the same function,
    [constructEventAsync] returns the event or throws the exception that
    [constructEvent] does, after the same requests to the provider. *)
Theorem constructEventAsync_agrees
  (payload : WebhookPayload) (header : WebhookHeader) (secret : string)
  (tolerance : option Js.number) (cp : option StripeCryptoProvider)
  (w : World) :
  (forall data key,
      computeHMACSignatureAsync (resolveProvider cp w) data key =
      computeHMACSignature (resolveProvider cp w) data key) ->
  fst (constructEventAsync payload header secret tolerance cp w) =
  fst (constructEvent payload header secret tolerance cp w) /\
  map callArguments
    (hmacCalls (snd (constructEventAsync payload header secret tolerance cp w)))
  = map callArguments
      (hmacCalls (snd (constructEvent payload header secret tolerance cp w))).
Proof.
  intros Hsame.
  destruct (verifyHeaderAsync_as_sync payload header secret
              (toleranceOrDefault tolerance) cp w Hsame) as [Hout Hcalls].
  rewrite constructEventAsync_unfold, constructEvent_unfold.
  destruct (verifyHeaderAsync payload header secret
              (toleranceOrDefault tolerance) cp w) as [[b|e] wa];
    destruct (verifyHeader payload header secret
                (toleranceOrDefault tolerance) cp w) as [[b'|e'] ws];
    cbn [fst snd] in *; try discriminate.
  - split; [reflexivity|exact Hcalls].
  - injection Hout as <-. split; [reflexivity|exact Hcalls].
Qed.

(** X10.  The default provider is a singleton.  [getNodeCryptoProvider]
    returns the provider held in the module variable, or creates one and
    stores it; a second call returns the same provider and changes
    nothing.  The clock and the record of calls are not touched. *)
Theorem getNodeCryptoProvider_is_a_singleton (w : World) :
  let first := getNodeCryptoProvider w in
  let second := getNodeCryptoProvider (snd first) in
  fst first = Return (resolveProvider None w) /\
  webhooksNodeCryptoProviderInstance (snd first) =
    Some (resolveProvider None w) /\
  second = first /\
  dateNow (snd first) = dateNow w /\
  hmacCalls (snd first) = hmacCalls w.
Proof.
  cbv zeta. unfold getNodeCryptoProvider, resolveProvider.
  destruct w as [now [p|] calls];
    cbn [webhooksNodeCryptoProviderInstance dateNow hmacCalls fst snd];
    repeat split; reflexivity.
Qed.









Lemma string_append_assoc (a b c : string) : (a ++ b) ++ c = a ++ (b ++ c).
Proof. induction a as [|x a IH]; simpl; [reflexivity|now rewrite IH]. Qed.





End GeneratorBehaviour.

(** ** The client object: configuration and application information *)

Section ClientObject.


(** What [_getPropsFromConfig] does with an object or a function. *)
Lemma getPropsFromConfig_object config :
  isObjectValue config = true -> isArrayValue config = false ->
  _getPropsFromConfig config =
  if forallb (includes ALLOWED_CONFIG_PROPERTIES) (objectKeys config)
  then Return config else Throw configKeysError.
Proof.
  intros Hobj Harr. unfold _getPropsFromConfig.
  assert (Htruthy : truthyValue config = true)
    by (destruct config; try discriminate; reflexivity).
  assert (Hstr : String.eqb (typeOf config) "string" = false)
    by (destruct config; try discriminate; reflexivity).
  rewrite Htruthy, Hobj, Harr, Hstr. cbn [negb andb].
  induction (objectKeys config) as [|k keys IH]; [reflexivity|].
  cbn [filter forallb].
  destruct (includes ALLOWED_CONFIG_PROPERTIES k); cbn [negb andb];
    [exact IH|reflexivity].
Qed.


Lemma getPropsFromConfig_cases config :
  _getPropsFromConfig config =
  match config with
  | VUndefined | VNull => Return (VObject [])
  | VBoolean b => if b then Throw configShapeError else Return (VObject [])
  | VNumber n =>
      if Js.truthy n then Throw configShapeError else Return (VObject [])
  | VString s =>
      if Js.truthyString s then Return (VObject [("apiVersion", VString s)])
      else Return (VObject [])
  | VArray _ => Throw configShapeError
  | VFunction _ | VObject _ =>
      if forallb (includes ALLOWED_CONFIG_PROPERTIES) (objectKeys config)
      then Return config else Throw configKeysError
  end.
Proof.
  destruct config as [| |b|n|s|items|fprops|oprops];
    try reflexivity;
    try (apply getPropsFromConfig_object; reflexivity).
  - now destruct b.
  - unfold _getPropsFromConfig. cbn [truthyValue].
    now destruct (Js.truthy n).
  - now destruct s.
Qed.

(** X17.  What [_getPropsFromConfig] returns is a configuration that it
    accepts and returns unchanged. *)
Theorem config_props_are_a_fixed_point (config props : JsValue) :
  _getPropsFromConfig config = Return props ->
  _getPropsFromConfig props = Return props.
Proof.
  rewrite getPropsFromConfig_cases.
  destruct config as [| |b|n|s|items|fprops|oprops];
    try (intros [= <-]; reflexivity); try discriminate.
  - destruct b; [discriminate|]. intros [= <-]. reflexivity.
  - destruct (Js.truthy n); [discriminate|]. intros [= <-]. reflexivity.
  - destruct (Js.truthyString s); intros [= <-]; reflexivity.
  - destruct (forallb _ _) eqn:Hall; [|discriminate]. intros [= <-].
    rewrite getPropsFromConfig_cases, Hall. reflexivity.
  - destruct (forallb _ _) eqn:Hall; [|discriminate]. intros [= <-].
    rewrite getPropsFromConfig_cases, Hall. reflexivity.
Qed.


Lemma appInfoStep_stringProp info accum prop :
  appInfoStep info accum prop =
  match stringProp info prop with
  | Some s =>
      Some (assignProp (match accum with Some a => a | None => [] end) prop s)
  | None => accum
  end.
Proof.
  unfold appInfoStep, stringProp. now destruct (getProp info prop).
Qed.

Lemma textOfProp_stringProp info prop render :
  textOfProp info prop render =
  match stringProp info prop with
  | Some s => if Js.truthyString s then render s else ""
  | None => ""
  end.
Proof.
  unfold textOfProp, stringProp. now destruct (getProp info prop).
Qed.

Lemma getProp_object info prop :
  getProp info prop <> VUndefined ->
  truthyValue info = true /\ typeOf info = "object".
Proof.
  destruct info; cbn [getProp]; try congruence. intros _. split; reflexivity.
Qed.

Lemma string_append_nil (s : string) : s ++ "" = s.
Proof. induction s as [|c s IH]; simpl; [reflexivity|now rewrite IH]. Qed.

(** X19.  Setting, then printing.  For application information whose
    [name] is a string that is not empty, [_setAppInfo] succeeds and
    [getAppInfoAsString] then gives the name, followed by [/] and the
    version when that is a string that is not empty, followed by the url
    in brackets when that is a string that is not empty.  The partner id
    is never printed. *)
Theorem setAppInfo_then_getAppInfoAsString
  (this : StripeObject) (info : JsValue) (name : string) :
  getProp info "name" = VString name ->
  name <> "" ->
  exists this',
    _setAppInfo this info = Return this' /\
    getAppInfoAsString this' =
    Some (name
          ++ textOfProp info "version" (fun version => "/" ++ version)
          ++ textOfProp info "url" (fun url => " (" ++ url ++ ")")).
Proof.
  intros Hname Hne.
  destruct (getProp_object info "name") as [Htruthy Htype];
    [rewrite Hname; discriminate|].
  unfold _setAppInfo. rewrite Htruthy, Htype, Hname.
  assert (Hn : Js.truthyString name = true) by (destruct name; [congruence|reflexivity]).
  cbn [truthyValue]. rewrite Hn.
  change (String.eqb "object" "object") with true. cbn [negb andb].
  eexists. split; [reflexivity|].
  unfold getAppInfoAsString, APP_INFO_PROPERTIES. cbn [_appInfo fold_left].
  rewrite !appInfoStep_stringProp, !textOfProp_stringProp.
  assert (Hsn : stringProp info "name" = Some name)
    by (unfold stringProp; now rewrite Hname).
  rewrite Hsn.
  destruct (stringProp info "version") as [[|cv v]|];
    destruct (stringProp info "url") as [[|cu u]|];
    destruct (stringProp info "partner_id") as [pid|];
    cbn; unfold appendTo; cbn;
    rewrite ?string_append_assoc; cbn; rewrite ?string_append_nil;
    reflexivity.
Qed.

(** X20.  What [_setAppInfo] stores.  When it succeeds, the stored
    information is either [undefined] or a non-empty object: each of its
    properties is one of [name], [version], [url] and [partner_id], occurs
    once, and is the string that [info] holds under that name. *)
Theorem setAppInfo_stores_known_strings
  (this this' : StripeObject) (info : JsValue) :
  _setAppInfo this info = Return this' ->
  match _appInfo this' with
  | None => True
  | Some appInfo =>
      appInfo <> [] /\
      NoDup (map fst appInfo) /\
      forall k v, In (k, v) appInfo ->
                  In k APP_INFO_PROPERTIES /\ getProp info k = VString v
  end.
Proof.
  unfold _setAppInfo.
  destruct (truthyValue info && negb (String.eqb (typeOf info) "object"));
    [discriminate|].
  destruct (truthyValue info && negb (truthyValue (getProp info "name")));
    [discriminate|].
  intros [= <-]. cbn [_appInfo]. unfold APP_INFO_PROPERTIES.
  cbn [fold_left]. rewrite !appInfoStep_stringProp.
  set (obj := if truthyValue info then info else VObject []).
  assert (Hobj : forall k v, stringProp obj k = Some v ->
                             getProp info k = VString v).
  { intros k v. unfold obj, stringProp.
    destruct (truthyValue info).
    - destruct (getProp info k); try discriminate. now intros [= ->].
    - cbn. discriminate. }
  destruct (stringProp obj "name") as [n|] eqn:Hn;
    destruct (stringProp obj "version") as [v|] eqn:Hv;
    destruct (stringProp obj "url") as [u|] eqn:Hu;
    destruct (stringProp obj "partner_id") as [pid|] eqn:Hp;
    cbn; try exact I;
    (split; [discriminate|]);
    (split; [repeat constructor; cbn; intuition discriminate|]);
    intros k x Hin;
    repeat (destruct Hin as [[= <- <-]|Hin]; [split; [cbn; tauto|auto]|]);
    destruct Hin.
Qed.

(** X21.  A [name] that is truthy and not a string passes the check of
    [_setAppInfo] and is not stored.  When the version is a string that is
    not empty, [getAppInfoAsString] then gives [undefined], [/] and the
    version, followed by the url as usual. *)
Theorem setAppInfo_accepts_a_name_that_is_not_a_string
  (this : StripeObject) (info : JsValue) (version : string) :
  truthyValue (getProp info "name") = true ->
  stringProp info "name" = None ->
  stringProp info "version" = Some version ->
  version <> "" ->
  exists this',
    _setAppInfo this info = Return this' /\
    getAppInfoAsString this' =
    Some ("undefined/" ++ version
          ++ textOfProp info "url" (fun url => " (" ++ url ++ ")")).
Proof.
  intros Htn Hsn Hsv Hne.
  destruct (getProp_object info "name") as [Htruthy Htype].
  { intros E. rewrite E in Htn. discriminate. }
  unfold _setAppInfo. rewrite Htruthy, Htype, Htn.
  change (String.eqb "object" "object") with true. cbn [negb andb].
  eexists. split; [reflexivity|].
  unfold getAppInfoAsString, APP_INFO_PROPERTIES. cbn [_appInfo fold_left].
  rewrite !appInfoStep_stringProp, !textOfProp_stringProp, Hsn, Hsv.
  destruct version as [|cv v]; [congruence|].
  destruct (stringProp info "url") as [[|cu u]|];
    destruct (stringProp info "partner_id") as [pid|];
    cbn; unfold appendTo; cbn;
    rewrite ?string_append_assoc; cbn; rewrite ?string_append_nil;
    reflexivity.
Qed.

End ClientObject.

(** ** The further theorems at work *)

Lemma header_without_timestamp_is_malformed_witness :
  @verifyHeader toyHost (PayloadString "{}") (HeaderString "") "whsec"
    (Js.Int 300) None world0 =
    (Throw (unableToExtract (Some "") "{}"), world0) /\
  @verifyHeader toyHost (PayloadString "{}")
    (HeaderString "v1=whsec/1.{},v0=abc") "whsec" (Js.Int 300) None world0 =
    (Throw (unableToExtract (Some "v1=whsec/1.{},v0=abc") "{}"), world0).
Proof.
  split.
  - apply (proj1 (@header_without_timestamp_is_malformed toyHost
                    (PayloadString "{}") "" "whsec" (Js.Int 300) None world0
                    ltac:(intros x [<-|[]]; discriminate))).
  - apply (proj1 (@header_without_timestamp_is_malformed toyHost
                    (PayloadString "{}") "v1=whsec/1.{},v0=abc" "whsec"
                    (Js.Int 300) None world0
                    ltac:(intros x [<-|[<-|[]]]; discriminate))).
Defined.

Lemma wider_tolerance_and_earlier_clock_keep_success_witness :
  fst (@verifyHeader toyHost (PayloadString "{}")
         (HeaderString "t=1614556800,v1=whsec/1614556800.{}") "whsec"
         (Js.Int 300) (Some toyProvider)
         {| dateNow := 1614556850000;
            webhooksNodeCryptoProviderInstance := None;
            hmacCalls := [] |}) = Return true.
Proof.
  apply (@wider_tolerance_and_earlier_clock_keep_success toyHost
           (PayloadString "{}")
           (HeaderString "t=1614556800,v1=whsec/1614556800.{}") "whsec"
           (Some toyProvider) 100 300 world0);
    [reflexivity|lia|cbn; lia|reflexivity].
Defined.

Lemma future_timestamp_never_expires_witness :
  fst (@verifyHeader toyHost (PayloadString "{}")
         (HeaderString "t=1700000000,v1=whsec/1700000000.{}") "whsec"
         (Js.Int 1) (Some toyProvider) world0) = Return true.
Proof.
  eapply (@future_timestamp_never_expires toyHost (PayloadString "{}")
            (HeaderString "t=1700000000,v1=whsec/1700000000.{}") "whsec"
            (Js.Int 1) (Some toyProvider) world0 _ 1700000000);
    [reflexivity|left; reflexivity|reflexivity|cbn; lia].
Defined.

Lemma constructEventAsync_agrees_witness :
  fst (@constructEventAsync toyHost (PayloadString "{}")
         (HeaderString "t=1614556800,v1=whsec/1614556800.{}") "whsec"
         None None world0) =
  fst (@constructEvent toyHost (PayloadString "{}")
         (HeaderString "t=1614556800,v1=whsec/1614556800.{}") "whsec"
         None None world0).
Proof.
  apply (@constructEventAsync_agrees toyHost (PayloadString "{}")
           (HeaderString "t=1614556800,v1=whsec/1614556800.{}") "whsec"
           None None world0).
  intros data key. reflexivity.
Defined.






Lemma config_props_are_a_fixed_point_witness :
  _getPropsFromConfig (VObject [("apiVersion", VString "2020-08-27")]) =
  Return (VObject [("apiVersion", VString "2020-08-27")]).
Proof.
  apply (config_props_are_a_fixed_point (VString "2020-08-27")).
  reflexivity.
Defined.


Lemma setAppInfo_then_getAppInfoAsString_witness :
  exists this',
    _setAppInfo {| _appInfo := None |}
      (VObject [("name", VString "MyPlugin"); ("version", VString "1.4.2");
                ("url", VString "https://myplugin.com");
                ("partner_id", VString "1234")]) = Return this' /\
    getAppInfoAsString this' =
    Some "MyPlugin/1.4.2 (https://myplugin.com)".
Proof.
  apply (setAppInfo_then_getAppInfoAsString {| _appInfo := None |}
           (VObject [("name", VString "MyPlugin"); ("version", VString "1.4.2");
                     ("url", VString "https://myplugin.com");
                     ("partner_id", VString "1234")]) "MyPlugin");
    [reflexivity|discriminate].
Defined.

Lemma setAppInfo_stores_known_strings_witness :
  NoDup ["name"; "partner_id"] /\
  getProp (VObject [("name", VString "MyPlugin"); ("version", VNumber (Js.Int 2));
                    ("partner_id", VString "1234"); ("extra", VString "x")])
    "partner_id" = VString "1234".
Proof.
  pose proof (setAppInfo_stores_known_strings {| _appInfo := None |}
                {| _appInfo := Some [("name", "MyPlugin");
                                     ("partner_id", "1234")] |}
                (VObject [("name", VString "MyPlugin");
                          ("version", VNumber (Js.Int 2));
                          ("partner_id", VString "1234");
                          ("extra", VString "x")]) eq_refl) as H.
  cbn [_appInfo] in H. destruct H as (_ & Hnodup & Hprops).
  split; [exact Hnodup|].
  apply (Hprops "partner_id" "1234"). right. left. reflexivity.
Defined.

Lemma setAppInfo_accepts_a_name_that_is_not_a_string_witness :
  exists this',
    _setAppInfo {| _appInfo := None |}
      (VObject [("name", VNumber (Js.Int 5)); ("version", VString "1.0")])
    = Return this' /\
    getAppInfoAsString this' = Some "undefined/1.0".
Proof.
  apply (setAppInfo_accepts_a_name_that_is_not_a_string {| _appInfo := None |}
           (VObject [("name", VNumber (Js.Int 5)); ("version", VString "1.0")])
           "1.0");
    [reflexivity|reflexivity|reflexivity|discriminate].
Defined.
